(** * Follow-up question pipeline of AGENT-AI-FUND: model and properties

    The development embeds the Python code of the follow-up agents

      - [FollowUpAgent/followUpAgent.py]
          ([FollowUpResponseParser.parse], [_truncate_history_to_fit_prompt],
           [_build_followup_prompt], [execute_agent]),
      - [Follow Up agent/follow_Up_Agent.py]
          ([execute_agent], [_prepare_follow_up_context], [_extract_intent],
           [_infer_intent_from_query], [_extract_additional_context],
           [_validate_follow_up_questions], [_generate_follow_up_questions],
           [_llm_generate_follow_up_questions]),
      - [Follow Up agent/follow_up_agent_prompts.py]
          ([generate_follow_up_questions]),
      - [FollowUpAgent/a Follow_up_Agent_implementation.py]
          ([_filter_duplicate_questions], [FollowUpAgent.process], and
           [generate_questions] of both generators),
      - [FollowUpAgent/b Follow_up_agent_Prompt.py]
          ([parse_follow_up_response]),
      - [Follow_Up_Agent/Follow_up_agent.py]
          ([_parse_follow_up_questions], [_identify_missing_information],
           [_identify_clarification_needed]),

    as Rocq functions, and states the properties of the specification
    about them.

    Conventions.
      - A Python [str] is a list of Unicode code points ([list N]);
        [len] is [length].  Python integers are [Z].
      - [str.lower] and the regular-expression class [\d] follow the
        Unicode character database: the lower-case mappings with the
        rule of the final sigma, and the decimal digits of every
        script.
      - A Python call that can raise is a function into [result E A].
        The resources of the interpreter (recursion depth, memory) are
        not part of the model. *)

From Stdlib Require Import ZArith NArith List String Ascii Lia QArith.
From stdpp Require Import gmap list.

Local Open Scope Z_scope.
Local Open Scope list_scope.

(** ** Python strings *)

Module Py.

Abbreviation char := N (only parsing).
Abbreviation str := (list N) (only parsing).

(** A Rocq string literal as a Python [str] (one code point per byte). *)
Definition py (s : string) : str :=
  List.map N_of_ascii (list_ascii_of_string s).

Definition nl : str := [10%N].
Definition dquote : str := [34%N].

(** A text between double quotes. *)
Definition quoted (s : str) : str := dquote ++ s ++ dquote.

(** [len(s)], for a string or a list *)
Definition len {A : Type} (s : list A) : Z := Z.of_nat (length s).

(** [s[:n]] *)
Definition slice_to (s : str) (n : Z) : str :=
  if n <? 0 then take (length s - Z.to_nat (- n)) s
  else take (Z.to_nat n) s.

(** [s[n:]] *)
Definition slice_from (s : str) (n : Z) : str :=
  if n <? 0 then drop (length s - Z.to_nat (- n)) s
  else drop (Z.to_nat n) s.

(** [str.isspace] on one code point: the code points Python treats as
    white space ([Py_UNICODE_ISSPACE]). *)
Definition isspace (c : char) : bool :=
  ((9 <=? c) && (c <=? 13) || (28 <=? c) && (c <=? 32)
   || (c =? 133) || (c =? 160) || (c =? 5760)
   || (8192 <=? c) && (c <=? 8202)
   || (c =? 8232) || (c =? 8233) || (c =? 8239) || (c =? 8287)
   || (c =? 12288))%N.

(** Removal of the leading code points that satisfy [p]. *)
Fixpoint lstrip_by (p : char -> bool) (s : str) : str :=
  match s with
  | [] => []
  | c :: r => if p c then lstrip_by p r else s
  end.

Definition rstrip_by (p : char -> bool) (s : str) : str :=
  rev (lstrip_by p (rev s)).

Definition strip_by (p : char -> bool) (s : str) : str :=
  rstrip_by p (lstrip_by p s).

(** [s.strip()] *)
Definition strip (s : str) : str := strip_by isspace s.

Definition mem_char (c : char) (chars : str) : bool :=
  existsb (N.eqb c) chars.

(** [s.strip(chars)] *)
Definition strip_chars (chars : str) (s : str) : str :=
  strip_by (fun c => mem_char c chars) s.

(** *** Character properties

    The properties of code points that [str.lower] and the class of
    decimal digits of [re] read from the Unicode character database, as
    tables of inclusive ranges (version 14.0 of the database, the one
    of CPython 3.11). *)

Definition in_ranges (ranges : list (N * N)) (c : N) : bool :=
  existsb (fun '(first, last) => (first <=? c) && (c <=? last))%N ranges.

(** Code points with the property [Case_Ignorable]. *)
Definition case_ignorable_ranges : list (N * N) :=
  [
   (39, 39); (46, 46); (58, 58); (94, 94); (96, 96); (168, 168); (173, 173);
   (175, 175); (180, 180); (183, 184); (688, 879); (884, 885); (890, 890);
   (900, 901); (903, 903); (1155, 1161); (1369, 1369); (1375, 1375);
   (1425, 1469); (1471, 1471); (1473, 1474); (1476, 1477); (1479, 1479);
   (1524, 1524); (1536, 1541); (1552, 1562); (1564, 1564); (1600, 1600);
   (1611, 1631); (1648, 1648); (1750, 1757); (1759, 1768); (1770, 1773);
   (1807, 1807); (1809, 1809); (1840, 1866); (1958, 1968); (2027, 2037);
   (2042, 2042); (2045, 2045); (2070, 2093); (2137, 2139); (2184, 2184);
   (2192, 2193); (2200, 2207); (2249, 2306); (2362, 2362); (2364, 2364);
   (2369, 2376); (2381, 2381); (2385, 2391); (2402, 2403); (2417, 2417);
   (2433, 2433); (2492, 2492); (2497, 2500); (2509, 2509); (2530, 2531);
   (2558, 2558); (2561, 2562); (2620, 2620); (2625, 2626); (2631, 2632);
   (2635, 2637); (2641, 2641); (2672, 2673); (2677, 2677); (2689, 2690);
   (2748, 2748); (2753, 2757); (2759, 2760); (2765, 2765); (2786, 2787);
   (2810, 2815); (2817, 2817); (2876, 2876); (2879, 2879); (2881, 2884);
   (2893, 2893); (2901, 2902); (2914, 2915); (2946, 2946); (3008, 3008);
   (3021, 3021); (3072, 3072); (3076, 3076); (3132, 3132); (3134, 3136);
   (3142, 3144); (3146, 3149); (3157, 3158); (3170, 3171); (3201, 3201);
   (3260, 3260); (3263, 3263); (3270, 3270); (3276, 3277); (3298, 3299);
   (3328, 3329); (3387, 3388); (3393, 3396); (3405, 3405); (3426, 3427);
   (3457, 3457); (3530, 3530); (3538, 3540); (3542, 3542); (3633, 3633);
   (3636, 3642); (3654, 3662); (3761, 3761); (3764, 3772); (3782, 3782);
   (3784, 3789); (3864, 3865); (3893, 3893); (3895, 3895); (3897, 3897);
   (3953, 3966); (3968, 3972); (3974, 3975); (3981, 3991); (3993, 4028);
   (4038, 4038); (4141, 4144); (4146, 4151); (4153, 4154); (4157, 4158);
   (4184, 4185); (4190, 4192); (4209, 4212); (4226, 4226); (4229, 4230);
   (4237, 4237); (4253, 4253); (4348, 4348); (4957, 4959); (5906, 5908);
   (5938, 5939); (5970, 5971); (6002, 6003); (6068, 6069); (6071, 6077);
   (6086, 6086); (6089, 6099); (6103, 6103); (6109, 6109); (6155, 6159);
   (6211, 6211); (6277, 6278); (6313, 6313); (6432, 6434); (6439, 6440);
   (6450, 6450); (6457, 6459); (6679, 6680); (6683, 6683); (6742, 6742);
   (6744, 6750); (6752, 6752); (6754, 6754); (6757, 6764); (6771, 6780);
   (6783, 6783); (6823, 6823); (6832, 6862); (6912, 6915); (6964, 6964);
   (6966, 6970); (6972, 6972); (6978, 6978); (7019, 7027); (7040, 7041);
   (7074, 7077); (7080, 7081); (7083, 7085); (7142, 7142); (7144, 7145);
   (7149, 7149); (7151, 7153); (7212, 7219); (7222, 7223); (7288, 7293);
   (7376, 7378); (7380, 7392); (7394, 7400); (7405, 7405); (7412, 7412);
   (7416, 7417); (7468, 7530); (7544, 7544); (7579, 7679); (8125, 8125);
   (8127, 8129); (8141, 8143); (8157, 8159); (8173, 8175); (8189, 8190);
   (8203, 8207); (8216, 8217); (8228, 8228); (8231, 8231); (8234, 8238);
   (8288, 8292); (8294, 8303); (8305, 8305); (8319, 8319); (8336, 8348);
   (8400, 8432); (11388, 11389); (11503, 11505); (11631, 11631);
   (11647, 11647); (11744, 11775); (11823, 11823); (12293, 12293);
   (12330, 12333); (12337, 12341); (12347, 12347); (12441, 12446);
   (12540, 12542); (40981, 40981); (42232, 42237); (42508, 42508);
   (42607, 42610); (42612, 42621); (42623, 42623); (42652, 42655);
   (42736, 42737); (42752, 42785); (42864, 42864); (42888, 42890);
   (42994, 42996); (43000, 43001); (43010, 43010); (43014, 43014);
   (43019, 43019); (43045, 43046); (43052, 43052); (43204, 43205);
   (43232, 43249); (43263, 43263); (43302, 43309); (43335, 43345);
   (43392, 43394); (43443, 43443); (43446, 43449); (43452, 43453);
   (43471, 43471); (43493, 43494); (43561, 43566); (43569, 43570);
   (43573, 43574); (43587, 43587); (43596, 43596); (43632, 43632);
   (43644, 43644); (43696, 43696); (43698, 43700); (43703, 43704);
   (43710, 43711); (43713, 43713); (43741, 43741); (43756, 43757);
   (43763, 43764); (43766, 43766); (43867, 43871); (43881, 43883);
   (44005, 44005); (44008, 44008); (44013, 44013); (64286, 64286);
   (64434, 64450); (65024, 65039); (65043, 65043); (65056, 65071);
   (65106, 65106); (65109, 65109); (65279, 65279); (65287, 65287);
   (65294, 65294); (65306, 65306); (65342, 65342); (65344, 65344);
   (65392, 65392); (65438, 65439); (65507, 65507); (65529, 65531);
   (66045, 66045); (66272, 66272); (66422, 66426); (67456, 67461);
   (67463, 67504); (67506, 67514); (68097, 68099); (68101, 68102);
   (68108, 68111); (68152, 68154); (68159, 68159); (68325, 68326);
   (68900, 68903); (69291, 69292); (69446, 69456); (69506, 69509);
   (69633, 69633); (69688, 69702); (69744, 69744); (69747, 69748);
   (69759, 69761); (69811, 69814); (69817, 69818); (69821, 69821);
   (69826, 69826); (69837, 69837); (69888, 69890); (69927, 69931);
   (69933, 69940); (70003, 70003); (70016, 70017); (70070, 70078);
   (70089, 70092); (70095, 70095); (70191, 70193); (70196, 70196);
   (70198, 70199); (70206, 70206); (70367, 70367); (70371, 70378);
   (70400, 70401); (70459, 70460); (70464, 70464); (70502, 70508);
   (70512, 70516); (70712, 70719); (70722, 70724); (70726, 70726);
   (70750, 70750); (70835, 70840); (70842, 70842); (70847, 70848);
   (70850, 70851); (71090, 71093); (71100, 71101); (71103, 71104);
   (71132, 71133); (71219, 71226); (71229, 71229); (71231, 71232);
   (71339, 71339); (71341, 71341); (71344, 71349); (71351, 71351);
   (71453, 71455); (71458, 71461); (71463, 71467); (71727, 71735);
   (71737, 71738); (71995, 71996); (71998, 71998); (72003, 72003);
   (72148, 72151); (72154, 72155); (72160, 72160); (72193, 72202);
   (72243, 72248); (72251, 72254); (72263, 72263); (72273, 72278);
   (72281, 72283); (72330, 72342); (72344, 72345); (72752, 72758);
   (72760, 72765); (72767, 72767); (72850, 72871); (72874, 72880);
   (72882, 72883); (72885, 72886); (73009, 73014); (73018, 73018);
   (73020, 73021); (73023, 73029); (73031, 73031); (73104, 73105);
   (73109, 73109); (73111, 73111); (73459, 73460); (78896, 78904);
   (92912, 92916); (92976, 92982); (92992, 92995); (94031, 94031);
   (94095, 94111); (94176, 94177); (94179, 94180); (110576, 110579);
   (110581, 110587); (110589, 110590); (113821, 113822); (113824, 113827);
   (118528, 118573); (118576, 118598); (119143, 119145); (119155, 119170);
   (119173, 119179); (119210, 119213); (119362, 119364); (121344, 121398);
   (121403, 121452); (121461, 121461); (121476, 121476); (121499, 121503);
   (121505, 121519); (122880, 122886); (122888, 122904); (122907, 122913);
   (122915, 122916); (122918, 122922); (123184, 123197); (123566, 123566);
   (123628, 123631); (125136, 125142); (125252, 125259); (127995, 127999);
   (917505, 917505); (917536, 917631); (917760, 917999)
  ]%N.

(** Code points with the property [Cased]. *)
Definition cased_ranges : list (N * N) :=
  [
   (65, 90); (97, 122); (170, 170); (181, 181); (186, 186); (192, 214);
   (216, 246); (248, 442); (444, 447); (452, 659); (661, 696); (704, 705);
   (736, 740); (837, 837); (880, 883); (886, 887); (890, 893); (895, 895);
   (902, 902); (904, 906); (908, 908); (910, 929); (931, 1013);
   (1015, 1153); (1162, 1327); (1329, 1366); (1376, 1416); (4256, 4293);
   (4295, 4295); (4301, 4301); (4304, 4346); (4349, 4351); (5024, 5109);
   (5112, 5117); (7296, 7304); (7312, 7354); (7357, 7359); (7424, 7615);
   (7680, 7957); (7960, 7965); (7968, 8005); (8008, 8013); (8016, 8023);
   (8025, 8025); (8027, 8027); (8029, 8029); (8031, 8061); (8064, 8116);
   (8118, 8124); (8126, 8126); (8130, 8132); (8134, 8140); (8144, 8147);
   (8150, 8155); (8160, 8172); (8178, 8180); (8182, 8188); (8305, 8305);
   (8319, 8319); (8336, 8348); (8450, 8450); (8455, 8455); (8458, 8467);
   (8469, 8469); (8473, 8477); (8484, 8484); (8486, 8486); (8488, 8488);
   (8490, 8493); (8495, 8500); (8505, 8505); (8508, 8511); (8517, 8521);
   (8526, 8526); (8544, 8575); (8579, 8580); (9398, 9449); (11264, 11492);
   (11499, 11502); (11506, 11507); (11520, 11557); (11559, 11559);
   (11565, 11565); (42560, 42605); (42624, 42653); (42786, 42887);
   (42891, 42894); (42896, 42954); (42960, 42961); (42963, 42963);
   (42965, 42969); (42997, 42998); (43000, 43002); (43824, 43866);
   (43868, 43880); (43888, 43967); (64256, 64262); (64275, 64279);
   (65313, 65338); (65345, 65370); (66560, 66639); (66736, 66771);
   (66776, 66811); (66928, 66938); (66940, 66954); (66956, 66962);
   (66964, 66965); (66967, 66977); (66979, 66993); (66995, 67001);
   (67003, 67004); (67456, 67456); (67459, 67461); (67463, 67504);
   (67506, 67514); (68736, 68786); (68800, 68850); (71840, 71903);
   (93760, 93823); (119808, 119892); (119894, 119964); (119966, 119967);
   (119970, 119970); (119973, 119974); (119977, 119980); (119982, 119993);
   (119995, 119995); (119997, 120003); (120005, 120069); (120071, 120074);
   (120077, 120084); (120086, 120092); (120094, 120121); (120123, 120126);
   (120128, 120132); (120134, 120134); (120138, 120144); (120146, 120485);
   (120488, 120512); (120514, 120538); (120540, 120570); (120572, 120596);
   (120598, 120628); (120630, 120654); (120656, 120686); (120688, 120712);
   (120714, 120744); (120746, 120770); (120772, 120779); (122624, 122633);
   (122635, 122654); (125184, 125251); (127280, 127305); (127312, 127337);
   (127344, 127369)
  ]%N.

(** Code points of the category [Nd], the decimal digits. *)
Definition decimal_ranges : list (N * N) :=
  [
   (48, 57); (1632, 1641); (1776, 1785); (1984, 1993); (2406, 2415);
   (2534, 2543); (2662, 2671); (2790, 2799); (2918, 2927); (3046, 3055);
   (3174, 3183); (3302, 3311); (3430, 3439); (3558, 3567); (3664, 3673);
   (3792, 3801); (3872, 3881); (4160, 4169); (4240, 4249); (6112, 6121);
   (6160, 6169); (6470, 6479); (6608, 6617); (6784, 6793); (6800, 6809);
   (6992, 7001); (7088, 7097); (7232, 7241); (7248, 7257); (42528, 42537);
   (43216, 43225); (43264, 43273); (43472, 43481); (43504, 43513);
   (43600, 43609); (44016, 44025); (65296, 65305); (66720, 66729);
   (68912, 68921); (69734, 69743); (69872, 69881); (69942, 69951);
   (70096, 70105); (70384, 70393); (70736, 70745); (70864, 70873);
   (71248, 71257); (71360, 71369); (71472, 71481); (71904, 71913);
   (72016, 72025); (72784, 72793); (73040, 73049); (73120, 73129);
   (92768, 92777); (92864, 92873); (93008, 93017); (120782, 120831);
   (123200, 123209); (123632, 123641); (125264, 125273); (130032, 130041)
  ]%N.

(** Simple lower-case mappings: [(first, last, step, target)] maps
    [first], [first + step], ... up to [last] to [target],
    [target + step], ... *)
Definition lowercase_table : list (N * N * N * N) :=
  [
   (65, 90, 1, 97); (192, 214, 1, 224); (216, 222, 1, 248);
   (256, 302, 2, 257); (306, 310, 2, 307); (313, 327, 2, 314);
   (330, 374, 2, 331); (376, 376, 1, 255); (377, 381, 2, 378);
   (385, 385, 1, 595); (386, 388, 2, 387); (390, 390, 1, 596);
   (391, 391, 1, 392); (393, 394, 1, 598); (395, 395, 1, 396);
   (398, 398, 1, 477); (399, 399, 1, 601); (400, 400, 1, 603);
   (401, 401, 1, 402); (403, 403, 1, 608); (404, 404, 1, 611);
   (406, 406, 1, 617); (407, 407, 1, 616); (408, 408, 1, 409);
   (412, 412, 1, 623); (413, 413, 1, 626); (415, 415, 1, 629);
   (416, 420, 2, 417); (422, 422, 1, 640); (423, 423, 1, 424);
   (425, 425, 1, 643); (428, 428, 1, 429); (430, 430, 1, 648);
   (431, 431, 1, 432); (433, 434, 1, 650); (435, 437, 2, 436);
   (439, 439, 1, 658); (440, 440, 1, 441); (444, 444, 1, 445);
   (452, 452, 1, 454); (453, 453, 1, 454); (455, 455, 1, 457);
   (456, 456, 1, 457); (458, 458, 1, 460); (459, 475, 2, 460);
   (478, 494, 2, 479); (497, 497, 1, 499); (498, 500, 2, 499);
   (502, 502, 1, 405); (503, 503, 1, 447); (504, 542, 2, 505);
   (544, 544, 1, 414); (546, 562, 2, 547); (570, 570, 1, 11365);
   (571, 571, 1, 572); (573, 573, 1, 410); (574, 574, 1, 11366);
   (577, 577, 1, 578); (579, 579, 1, 384); (580, 580, 1, 649);
   (581, 581, 1, 652); (582, 590, 2, 583); (880, 882, 2, 881);
   (886, 886, 1, 887); (895, 895, 1, 1011); (902, 902, 1, 940);
   (904, 906, 1, 941); (908, 908, 1, 972); (910, 911, 1, 973);
   (913, 929, 1, 945); (931, 939, 1, 963); (975, 975, 1, 983);
   (984, 1006, 2, 985); (1012, 1012, 1, 952); (1015, 1015, 1, 1016);
   (1017, 1017, 1, 1010); (1018, 1018, 1, 1019); (1021, 1023, 1, 891);
   (1024, 1039, 1, 1104); (1040, 1071, 1, 1072); (1120, 1152, 2, 1121);
   (1162, 1214, 2, 1163); (1216, 1216, 1, 1231); (1217, 1229, 2, 1218);
   (1232, 1326, 2, 1233); (1329, 1366, 1, 1377); (4256, 4293, 1, 11520);
   (4295, 4295, 1, 11559); (4301, 4301, 1, 11565); (5024, 5103, 1, 43888);
   (5104, 5109, 1, 5112); (7312, 7354, 1, 4304); (7357, 7359, 1, 4349);
   (7680, 7828, 2, 7681); (7838, 7838, 1, 223); (7840, 7934, 2, 7841);
   (7944, 7951, 1, 7936); (7960, 7965, 1, 7952); (7976, 7983, 1, 7968);
   (7992, 7999, 1, 7984); (8008, 8013, 1, 8000); (8025, 8031, 2, 8017);
   (8040, 8047, 1, 8032); (8072, 8079, 1, 8064); (8088, 8095, 1, 8080);
   (8104, 8111, 1, 8096); (8120, 8121, 1, 8112); (8122, 8123, 1, 8048);
   (8124, 8124, 1, 8115); (8136, 8139, 1, 8050); (8140, 8140, 1, 8131);
   (8152, 8153, 1, 8144); (8154, 8155, 1, 8054); (8168, 8169, 1, 8160);
   (8170, 8171, 1, 8058); (8172, 8172, 1, 8165); (8184, 8185, 1, 8056);
   (8186, 8187, 1, 8060); (8188, 8188, 1, 8179); (8486, 8486, 1, 969);
   (8490, 8490, 1, 107); (8491, 8491, 1, 229); (8498, 8498, 1, 8526);
   (8544, 8559, 1, 8560); (8579, 8579, 1, 8580); (9398, 9423, 1, 9424);
   (11264, 11311, 1, 11312); (11360, 11360, 1, 11361);
   (11362, 11362, 1, 619); (11363, 11363, 1, 7549); (11364, 11364, 1, 637);
   (11367, 11371, 2, 11368); (11373, 11373, 1, 593); (11374, 11374, 1, 625);
   (11375, 11375, 1, 592); (11376, 11376, 1, 594); (11378, 11378, 1, 11379);
   (11381, 11381, 1, 11382); (11390, 11391, 1, 575);
   (11392, 11490, 2, 11393); (11499, 11501, 2, 11500);
   (11506, 11506, 1, 11507); (42560, 42604, 2, 42561);
   (42624, 42650, 2, 42625); (42786, 42798, 2, 42787);
   (42802, 42862, 2, 42803); (42873, 42875, 2, 42874);
   (42877, 42877, 1, 7545); (42878, 42886, 2, 42879);
   (42891, 42891, 1, 42892); (42893, 42893, 1, 613);
   (42896, 42898, 2, 42897); (42902, 42920, 2, 42903);
   (42922, 42922, 1, 614); (42923, 42923, 1, 604); (42924, 42924, 1, 609);
   (42925, 42925, 1, 620); (42926, 42926, 1, 618); (42928, 42928, 1, 670);
   (42929, 42929, 1, 647); (42930, 42930, 1, 669); (42931, 42931, 1, 43859);
   (42932, 42946, 2, 42933); (42948, 42948, 1, 42900);
   (42949, 42949, 1, 642); (42950, 42950, 1, 7566);
   (42951, 42953, 2, 42952); (42960, 42960, 1, 42961);
   (42966, 42968, 2, 42967); (42997, 42997, 1, 42998);
   (65313, 65338, 1, 65345); (66560, 66599, 1, 66600);
   (66736, 66771, 1, 66776); (66928, 66938, 1, 66967);
   (66940, 66954, 1, 66979); (66956, 66962, 1, 66995);
   (66964, 66965, 1, 67003); (68736, 68786, 1, 68800);
   (71840, 71871, 1, 71872); (93760, 93791, 1, 93792);
   (125184, 125217, 1, 125218)
  ]%N.

Definition is_case_ignorable (c : char) : bool :=
  in_ranges case_ignorable_ranges c.

Definition is_cased (c : char) : bool := in_ranges cased_ranges c.

(** [str.isdecimal] on one code point, which is also the class of
    decimal digits of [re] on a [str]. *)
Definition isdecimal (c : char) : bool := in_ranges decimal_ranges c.

(** The lower case of one code point.  U+0130 alone has a lower case of
    two code points. *)
Definition to_lower_full (c : char) : str :=
  if (c =? 304)%N then [105%N; 775%N]
  else
    match
      List.find
        (fun '(first, last, step, _) =>
           (first <=? c) && (c <=? last) && ((c - first) mod step =? 0))%N
        lowercase_table
    with
    | Some (first, _, _, target) => [(target + (c - first))%N]
    | None => [c]
    end.

(** The lower case of a capital sigma U+03A3 between [before], the text
    read so far in reverse order, and [after]: the final form U+03C2
    when, case-ignorable code points skipped, a cased one precedes it
    and none follows it; U+03C3 otherwise. *)
Definition handle_capital_sigma (before after : str) : char :=
  let final_sigma :=
    match lstrip_by is_case_ignorable before with
    | c :: _ =>
        is_cased c
        && match lstrip_by is_case_ignorable after with
           | d :: _ => negb (is_cased d)
           | [] => true
           end
    | [] => false
    end in
  if final_sigma then 962%N else 963%N.

(** The loop of [s.lower()]; [before] is the text already read, in
    reverse order. *)
Fixpoint lower_from (before : str) (s : str) : str :=
  match s with
  | [] => []
  | c :: r =>
      (if (c =? 931)%N then [handle_capital_sigma before r]
       else to_lower_full c)
      ++ lower_from (c :: before) r
  end.

(** [s.lower()] *)
Definition lower (s : str) : str := lower_from [] s.

Definition str_eqb (a b : str) : bool := bool_decide (a = b).

(** [s.startswith(p)] *)
Fixpoint startswith (s p : str) {struct p} : bool :=
  match p with
  | [] => true
  | x :: p' =>
      match s with
      | [] => false
      | y :: s' => (x =? y)%N && startswith s' p'
      end
  end.

(** [s.endswith(p)] *)
Definition endswith (s p : str) : bool := startswith (rev s) (rev p).

(** Line boundaries of [str.splitlines]. *)
Definition is_linebreak (c : char) : bool :=
  ((10 <=? c) && (c <=? 13) || (28 <=? c) && (c <=? 30)
   || (c =? 133) || (c =? 8232) || (c =? 8233))%N.

(** [s.splitlines()]: [cur] is the line being read, reversed. *)
Fixpoint splitlines_aux (cur : str) (s : str) : list str :=
  match s with
  | [] => match cur with [] => [] | _ => [rev cur] end
  | c :: r =>
      if (c =? 13)%N then
        match r with
        | d :: r' =>
            if (d =? 10)%N then rev cur :: splitlines_aux [] r'
            else rev cur :: splitlines_aux [] r
        | [] => [rev cur]
        end
      else if is_linebreak c then rev cur :: splitlines_aux [] r
      else splitlines_aux (c :: cur) r
  end.

Definition splitlines (s : str) : list str := splitlines_aux [] s.

(** [s.split(sep)] for a separator of one code point. *)
Fixpoint split_aux (sep : char) (cur : str) (s : str) : list str :=
  match s with
  | [] => [rev cur]
  | c :: r =>
      if (c =? sep)%N then rev cur :: split_aux sep [] r
      else split_aux sep (c :: cur) r
  end.

Definition split (sep : char) (s : str) : list str := split_aux sep [] s.

(** Truth value of a [str]: the empty string is false. *)
Definition truthy (s : str) : bool :=
  match s with [] => false | _ => true end.

End Py.

Import Py.

(** ** Prompt budget: [FollowUpAgent/followUpAgent.py] *)

Module Prompt.

(** Hard limit for the entire prompt. *)
Definition MAX_PROMPT_CHARS : Z := 10000.

(** The fields of [AgentSystemRequest] the prompt builder reads. *)
Record AgentSystemRequest := {
  history : str;
  query : str
}.

(** [_truncate_history_to_fit_prompt] *)
Definition _truncate_history_to_fit_prompt (static_prompt history : str) : str :=
  let available := MAX_PROMPT_CHARS - len static_prompt in
  if available <=? 0 then []
  else if len history >? available then slice_from history (- available)
  else history.

Section Build.

(** The prompt constants imported from [prompt_repository], which is
    not part of the sources at hand: any three texts. *)
Variables ARTH_SYSTEM_PROMPT USER_PORTFOLIO_SCHEMA
          MUTUAL_FUND_CATEGORY_INFO_SCHEMA : str.

Definition static_prompt : str :=
  nl ++ ARTH_SYSTEM_PROMPT ++ nl
  ++ nl ++ py "# Data Schemas for Reference" ++ nl
  ++ USER_PORTFOLIO_SCHEMA ++ nl
  ++ MUTUAL_FUND_CATEGORY_INFO_SCHEMA ++ nl
  ++ nl
  ++ py "You are a follow-up agent. Your task is to ask 3-5 targeted, high-impact follow-up questions to clarify the user's intent or gather missing information."
  ++ nl
  ++ nl ++ py "## User Chat History:" ++ nl.

Definition instructions (query : str) : str :=
  nl
  ++ nl ++ py "## User Query:" ++ nl
  ++ query ++ nl
  ++ nl ++ py "## Instructions:" ++ nl
  ++ py "- Ask only for information that is necessary to proceed." ++ nl
  ++ py "- Be concise and clear." ++ nl
  ++ py "- If the query is already clear, respond with 'No follow-up needed.'" ++ nl
  ++ py "- Respond ONLY in the following JSON format:" ++ nl
  ++ py "{" ++ nl
  ++ py "  " ++ dquote ++ py "questions" ++ dquote ++ py ": [" ++ nl
  ++ py "    " ++ dquote ++ py "First follow-up question?" ++ dquote ++ py "," ++ nl
  ++ py "    " ++ dquote ++ py "Second follow-up question?" ++ dquote ++ py "," ++ nl
  ++ py "    ..." ++ nl
  ++ py "  ]" ++ nl
  ++ py "}" ++ nl
  ++ py "- If no follow-up is needed, respond with the string: No follow-up needed." ++ nl.

(** [_build_followup_prompt] *)
Definition _build_followup_prompt (agent_request : AgentSystemRequest) : str :=
  let truncated_history :=
    _truncate_history_to_fit_prompt static_prompt (history agent_request) in
  let prompt :=
    static_prompt ++ truncated_history ++ instructions (query agent_request) in
  if len prompt >? MAX_PROMPT_CHARS then slice_to prompt MAX_PROMPT_CHARS
  else prompt.

End Build.

End Prompt.

(** ** Exceptions *)

(** A Python call either returns or raises. *)
Inductive result (E A : Type) :=
| Return (a : A)
| Raise (e : E).
Arguments Return {E A} a.
Arguments Raise {E A} e.

(** The exceptions of [json.loads] on a [str]: [json.JSONDecodeError]
    for a text that is not a JSON document, [ValueError] from [int] for
    an integer literal longer than the interpreter's limit for the
    conversion of integer strings. *)
Inductive parse_exn :=
| JSONDecodeError
| ValueError.

(** What the agents read of an exception [e]: [str(e)]. *)
Record Exception := { text : str }.

(** ** Python values and [json]

    [json.loads] and [json.dumps] belong to Python's standard library;
    the decoder below follows [json/decoder.py] and [json/scanner.py]
    (white space, strings with their escapes and surrogate pairs, numbers,
    constants, arrays and objects), the encoder follows
    [json/encoder.py] with its default [ensure_ascii=True].  Every
    failure of the decoder is a [JSONDecodeError], but for the one
    [ValueError] the documentation of [json] announces: the default
    [parse_int] limits the length of an integer literal. *)

Module Json.

(** The Python values a JSON text decodes to.  A number keeps its
    literal: no code path reads the value of a number.  An object
    keeps its pairs in the order read; [dict(pairs)] retains the last
    binding of a key. *)
#[warnings="-register-all"]
Inductive value :=
| VNone
| VBool (b : bool)
| VNum (literal : str)
| VStr (s : str)
| VList (items : list value)
| VDict (pairs : list (str * value)).

(** [key in d] and [d[key]] for [d = dict(pairs)]. *)
Fixpoint dict_get (key : str) (pairs : list (str * value)) : option value :=
  match pairs with
  | [] => None
  | (k, v) :: rest =>
      match dict_get key rest with
      | Some w => Some w
      | None => if str_eqb k key then Some v else None
      end
  end.

(** Outcome of a scan with bounded recursion: [Failed e] is the
    exception [e] raised, [Exhausted] the end of the fuel. *)
Inductive outcome (A : Type) :=
| Done (a : A)
| Failed (e : parse_exn)
| Exhausted.
Arguments Done {A} a.
Arguments Failed {A} e.
Arguments Exhausted {A}.

Abbreviation Invalid := (Failed JSONDecodeError).

(** [WHITESPACE_STR = ' \t\n\r'] *)
Definition is_ws (c : char) : bool :=
  ((c =? 32) || (c =? 9) || (c =? 10) || (c =? 13))%N.

Definition skip_ws (s : str) : str := lstrip_by is_ws s.

Definition is_digit (c : char) : bool := ((48 <=? c) && (c <=? 57))%N.

(** Longest prefix of code points satisfying [p], and the rest. *)
Fixpoint span (p : char -> bool) (s : str) : str * str :=
  match s with
  | [] => ([], [])
  | c :: r =>
      if p c then let '(a, b) := span p r in (c :: a, b) else ([], s)
  end.

(** *** Strings *)

Definition hex_digit (c : char) : option N :=
  if ((48 <=? c) && (c <=? 57))%N then Some (c - 48)%N
  else if ((97 <=? c) && (c <=? 102))%N then Some (c - 87)%N
  else if ((65 <=? c) && (c <=? 70))%N then Some (c - 55)%N
  else None.

(** [_decode_uXXXX]: [int(s[pos+1:pos+5], 16)] *)
Definition hex4 (a b c d : char) : option N :=
  match hex_digit a, hex_digit b, hex_digit c, hex_digit d with
  | Some x, Some y, Some z, Some w =>
      Some (((x * 16 + y) * 16 + z) * 16 + w)%N
  | _, _, _, _ => None
  end.

(** [BACKSLASH] *)
Definition backslash (e : char) : option char :=
  if (e =? 34)%N then Some 34%N
  else if (e =? 92)%N then Some 92%N
  else if (e =? 47)%N then Some 47%N
  else if (e =? 98)%N then Some 8%N
  else if (e =? 102)%N then Some 12%N
  else if (e =? 110)%N then Some 10%N
  else if (e =? 114)%N then Some 13%N
  else if (e =? 116)%N then Some 9%N
  else None.

(** What one step of the string scanner yields: a code point taken
    as it stands or from a two-letter escape, or the value of a
    [\uXXXX] escape. *)
Inductive piece :=
| Plain (c : char)
| Escaped (u : N).

(** The loop of [py_scanstring] (strict mode) after the opening quote,
    up to and including the closing quote. *)
Fixpoint scan_pieces (s : str) : option (list piece * str) :=
  match s with
  | [] => None
  | c :: r =>
      if (c =? 34)%N then Some ([], r)
      else if (c =? 92)%N then
        match r with
        | [] => None
        | e :: r1 =>
            if (e =? 117)%N then
              match r1 with
              | h1 :: h2 :: h3 :: h4 :: r2 =>
                  match hex4 h1 h2 h3 h4 with
                  | Some u =>
                      match scan_pieces r2 with
                      | Some (ps, rest) => Some (Escaped u :: ps, rest)
                      | None => None
                      end
                  | None => None
                  end
              | _ => None
              end
            else
              match backslash e with
              | Some ch =>
                  match scan_pieces r1 with
                  | Some (ps, rest) => Some (Plain ch :: ps, rest)
                  | None => None
                  end
              | None => None
              end
        end
      else if (c <? 32)%N then None
      else
        match scan_pieces r with
        | Some (ps, rest) => Some (Plain c :: ps, rest)
        | None => None
        end
  end.

Definition is_high_surrogate (u : N) : bool :=
  ((55296 <=? u) && (u <=? 56319))%N.
Definition is_low_surrogate (u : N) : bool :=
  ((56320 <=? u) && (u <=? 57343))%N.

(** A [\uXXXX] escape of a high surrogate directly followed by a
    [\uXXXX] escape of a low surrogate is one code point. *)
Fixpoint join_pieces (ps : list piece) : str :=
  match ps with
  | [] => []
  | Plain c :: rest => c :: join_pieces rest
  | Escaped u :: rest =>
      match rest with
      | Escaped u2 :: rest2 =>
          if is_high_surrogate u && is_low_surrogate u2 then
            (65536 + N.lor (N.shiftl (u - 55296) 10) (u2 - 56320))%N
              :: join_pieces rest2
          else u :: join_pieces rest
      | _ => u :: join_pieces rest
      end
  end.

(** [py_scanstring(s, end)]: the decoded string and the text after the
    closing quote. *)
Definition py_scanstring (s : str) : option (str * str) :=
  match scan_pieces s with
  | Some (ps, rest) => Some (join_pieces ps, rest)
  | None => None
  end.

(** *** Numbers: [NUMBER_RE] *)

Definition match_int (s : str) : option (str * str) :=
  match s with
  | [] => None
  | c :: r =>
      if (c =? 48)%N then Some ([c], r)
      else if is_digit c then
        let '(ds, r') := span is_digit r in Some (c :: ds, r')
      else None
  end.

Definition match_integer (s : str) : option (str * str) :=
  match s with
  | [] => None
  | c :: r =>
      if (c =? 45)%N then
        match match_int r with
        | Some (ds, r') => Some (c :: ds, r')
        | None => None
        end
      else match_int s
  end.

Definition match_frac (s : str) : str * str :=
  match s with
  | [] => ([], s)
  | c :: r =>
      if (c =? 46)%N then
        match span is_digit r with
        | ([], _) => ([], s)
        | (ds, r') => (c :: ds, r')
        end
      else ([], s)
  end.

Definition match_exp (s : str) : str * str :=
  match s with
  | [] => ([], s)
  | e :: r =>
      if ((e =? 101) || (e =? 69))%N then
        let '(sign, r1) :=
          match r with
          | c :: r0 => if ((c =? 45) || (c =? 43))%N then ([c], r0) else ([], r)
          | [] => ([], r)
          end in
        match span is_digit r1 with
        | ([], _) => ([], s)
        | (ds, r2) => (e :: sign ++ ds, r2)
        end
      else ([], s)
  end.

(** The groups [integer], [frac] and [exp] of a match of [NUMBER_RE],
    and the text after it. *)
Definition match_number (s : str) : option (str * str * str * str) :=
  match match_integer s with
  | None => None
  | Some (i, r) =>
      let '(f, r1) := match_frac r in
      let '(x, r2) := match_exp r1 in
      Some (i, f, x, r2)
  end.

(** Default of [sys.get_int_max_str_digits()]: the default
    [parse_int], [int], raises [ValueError] on a literal with more
    digits. *)
Definition INT_MAX_STR_DIGITS : nat := 4300.

Definition count_digits (integer : str) : nat :=
  length (List.filter is_digit integer).

(** *** Values *)

(** [_scan_once], [JSONArray] and [JSONObject].  [array_items] is the
    loop of [JSONArray], [object_items] the loop of [JSONObject]
    entered after the opening quote of a key; [acc] holds what was
    read so far, last first. *)
Fixpoint scan_once (fuel : nat) (s : str) : outcome (value * str) :=
  match fuel with
  | O => Exhausted
  | S fuel =>
      match s with
      | [] => Invalid
      | c :: r =>
          if (c =? 34)%N then
            match py_scanstring r with
            | Some (t, r') => Done (VStr t, r')
            | None => Invalid
            end
          else if (c =? 123)%N then
            match skip_ws r with
            | d :: r' =>
                if (d =? 125)%N then Done (VDict [], r')
                else if (d =? 34)%N then object_items fuel [] r'
                else Invalid
            | [] => Invalid
            end
          else if (c =? 91)%N then
            match skip_ws r with
            | d :: r' =>
                if (d =? 93)%N then Done (VList [], r')
                else array_items fuel [] (skip_ws r)
            | [] => Invalid
            end
          else if startswith s (py "null") then Done (VNone, drop 4 s)
          else if startswith s (py "true") then Done (VBool true, drop 4 s)
          else if startswith s (py "false") then Done (VBool false, drop 5 s)
          else
            match match_number s with
            | Some (integer, frac, exp, r') =>
                if truthy frac || truthy exp
                then Done (VNum (integer ++ frac ++ exp), r')
                else if (INT_MAX_STR_DIGITS <? count_digits integer)%nat
                then Failed ValueError
                else Done (VNum integer, r')
            | None =>
                if startswith s (py "NaN") then Done (VNum (py "NaN"), drop 3 s)
                else if startswith s (py "Infinity")
                then Done (VNum (py "Infinity"), drop 8 s)
                else if startswith s (py "-Infinity")
                then Done (VNum (py "-Infinity"), drop 9 s)
                else Invalid
            end
      end
  end
with array_items (fuel : nat) (acc : list value) (s : str)
       : outcome (value * str) :=
  match fuel with
  | O => Exhausted
  | S fuel =>
      match scan_once fuel s with
      | Done (v, r) =>
          match skip_ws r with
          | c :: r' =>
              if (c =? 93)%N then Done (VList (rev (v :: acc)), r')
              else if (c =? 44)%N
              then array_items fuel (v :: acc) (skip_ws r')
              else Invalid
          | [] => Invalid
          end
      | Failed e => Failed e
      | Exhausted => Exhausted
      end
  end
with object_items (fuel : nat) (acc : list (str * value)) (s : str)
       : outcome (value * str) :=
  match fuel with
  | O => Exhausted
  | S fuel =>
      match py_scanstring s with
      | None => Invalid
      | Some (key, r) =>
          match skip_ws r with
          | c :: r1 =>
              if (c =? 58)%N then
                match scan_once fuel (skip_ws r1) with
                | Done (v, r2) =>
                    match skip_ws r2 with
                    | d :: r3 =>
                        if (d =? 125)%N
                        then Done (VDict (rev ((key, v) :: acc)), r3)
                        else if (d =? 44)%N then
                          match skip_ws r3 with
                          | q :: r4 =>
                              if (q =? 34)%N
                              then object_items fuel ((key, v) :: acc) r4
                              else Invalid
                          | [] => Invalid
                          end
                        else Invalid
                    | [] => Invalid
                    end
                | Failed e => Failed e
                | Exhausted => Exhausted
                end
              else Invalid
          | [] => Invalid
          end
      end
  end.

(** Recursion budget that every text stays within (see
    [scan_once_never_exhausted] below). *)
Definition fuel_for (s : str) : nat := S (S (length s + length s)).

(** [json.loads(s)] for a [str]. *)
Definition json_loads (s : str) : result parse_exn value :=
  if startswith s [65279%N] then Raise JSONDecodeError
  else
    match scan_once (fuel_for s) (skip_ws s) with
    | Done (v, r) =>
        match skip_ws r with
        | [] => Return v
        | _ :: _ => Raise JSONDecodeError
        end
    | Failed e => Raise e
    | Exhausted => Raise JSONDecodeError
    end.

(** *** Encoder *)

Definition hex_char (d : N) : char :=
  if (d <? 10)%N then (48 + d)%N else (87 + d)%N.

(** ['\\u{0:04x}'.format(n)] for [n < 0x10000] *)
Definition u_escape (n : N) : str :=
  [92%N; 117%N;
   hex_char (n / 4096 mod 16); hex_char (n / 256 mod 16);
   hex_char (n / 16 mod 16); hex_char (n mod 16)].

(** The replacement of one code point in [py_encode_basestring_ascii]. *)
Definition escape_char (c : char) : str :=
  if (c =? 92)%N then [92%N; 92%N]
  else if (c =? 34)%N then [92%N; 34%N]
  else if (c =? 8)%N then [92%N; 98%N]
  else if (c =? 12)%N then [92%N; 102%N]
  else if (c =? 10)%N then [92%N; 110%N]
  else if (c =? 13)%N then [92%N; 114%N]
  else if (c =? 9)%N then [92%N; 116%N]
  else if ((32 <=? c) && (c <=? 126))%N then [c]
  else if (c <? 65536)%N then u_escape c
  else
    let n := (c - 65536)%N in
    u_escape (N.lor 55296 (N.land (N.shiftr n 10) 1023))
    ++ u_escape (N.lor 56320 (N.land n 1023)).

Definition encode_basestring_ascii (s : str) : str :=
  dquote ++ concat (List.map escape_char s) ++ dquote.

(** [', '.join(items)] *)
Fixpoint join_comma (items : list str) : str :=
  match items with
  | [] => []
  | [x] => x
  | x :: rest => x ++ py ", " ++ join_comma rest
  end.

(** [json.dumps(qs)] for a list of strings. *)
Definition dumps_list (qs : list str) : str :=
  py "[" ++ join_comma (List.map encode_basestring_ascii qs) ++ py "]".

(** *** What the decoder makes of the encoder's output *)

(** A Unicode scalar value: a code point below [0x110000] that is no
    surrogate. *)
Definition is_scalar (c : char) : bool :=
  ((c <? 55296) || ((57344 <=? c) && (c <? 1114112)))%N.

(** The pieces the string scanner reads from [escape_char c]. *)
Definition escape_pieces (c : char) : list piece :=
  if (c =? 92)%N then [Plain c]
  else if (c =? 34)%N then [Plain c]
  else if (c =? 8)%N then [Plain c]
  else if (c =? 12)%N then [Plain c]
  else if (c =? 10)%N then [Plain c]
  else if (c =? 13)%N then [Plain c]
  else if (c =? 9)%N then [Plain c]
  else if ((32 <=? c) && (c <=? 126))%N then [Plain c]
  else if (c <? 65536)%N then [Escaped c]
  else
    let n := (c - 65536)%N in
    [Escaped (N.lor 55296 (N.land (N.shiftr n 10) 1023));
     Escaped (N.lor 56320 (N.land n 1023))].

(** A text of Unicode scalar values. *)
Definition scalar_text (q : str) : Prop :=
  Forall (fun c => is_scalar c = true) q.

End Json.

Import Json.

(** ** Response parsers *)

Module Parser.

(** The dictionary returned by [FollowUpResponseParser.parse]. *)
Record parsed := {
  questions : list str;
  no_follow_up_needed : bool
}.

(** [[q for q in items if isinstance(q, str) and q.strip()]] *)
Fixpoint nonblank_strings (items : list value) : list str :=
  match items with
  | [] => []
  | VStr q :: rest =>
      if truthy (strip q) then q :: nonblank_strings rest
      else nonblank_strings rest
  | _ :: rest => nonblank_strings rest
  end.

(** The [except] branch of [parse]: questions from a numbered or
    bulleted list. *)
Definition line_questions (response : str) : list str :=
  let lines :=
    List.map (strip_chars (py "- "))
      (List.filter (fun l => truthy (strip l)) (splitlines response)) in
  List.filter (fun l => endswith l (py "?")) lines.

(** [FollowUpResponseParser.parse] of [FollowUpAgent/followUpAgent.py],
    over the JSON decoder it calls. *)
Definition parse_with (loads : str -> result parse_exn value)
    (response : str) : parsed :=
  let response := strip response in
  if startswith (lower response) (py "no follow-up needed") then
    {| questions := []; no_follow_up_needed := true |}
  else
    match loads response with
    | Return (VDict pairs) =>
        match dict_get (py "questions") pairs with
        | Some (VList items) =>
            {| questions := nonblank_strings items;
               no_follow_up_needed := false |}
        | _ => {| questions := []; no_follow_up_needed := true |}
        end
    | Return (VList items) =>
        {| questions := nonblank_strings items;
           no_follow_up_needed := false |}
    | Return _ => {| questions := []; no_follow_up_needed := true |}
    | Raise _ =>
        match line_questions response with
        | [] => {| questions := []; no_follow_up_needed := true |}
        | qs => {| questions := qs; no_follow_up_needed := false |}
        end
    end.

Definition parse (response : str) : parsed := parse_with json_loads response.

(** *** [parse_follow_up_response] of
    [FollowUpAgent/b Follow_up_agent_Prompt.py] *)

(** Longest prefix of [s] that ends with [c]. *)
Fixpoint upto_last (c : char) (s : str) : option str :=
  match s with
  | [] => None
  | x :: r =>
      match upto_last c r with
      | Some t => Some (x :: t)
      | None => if (x =? c)%N then Some [x] else None
      end
  end.

(** [re.search(r'\[[\s\S]*\]', s)]: the match, from the first opening
    bracket that has a closing bracket after it to the last closing
    bracket. *)
Fixpoint search_bracketed (s : str) : option str :=
  match s with
  | [] => None
  | x :: r =>
      if (x =? 91)%N then
        match upto_last 93%N r with
        | Some t => Some (x :: t)
        | None => search_bracketed r
        end
      else search_bracketed r
  end.

(** [isinstance(questions, list) and all(isinstance(q, str) ...)] on
    the items of a list. *)
Fixpoint all_strings (items : list value) : option (list str) :=
  match items with
  | [] => Some []
  | VStr q :: rest =>
      match all_strings rest with
      | Some qs => Some (q :: qs)
      | None => None
      end
  | _ :: _ => None
  end.

(** [(.*?\?)]: the text up to the first question mark of the line, and
    what follows it. *)
Fixpoint lazy_question (s : str) : option (str * str) :=
  match s with
  | [] => None
  | c :: r =>
      if (c =? 63)%N then Some ([c], r)
      else if (c =? 10)%N then None
      else
        match lazy_question r with
        | Some (g, rest) => Some (c :: g, rest)
        | None => None
        end
  end.

(** The enumeration marker of [numbered_pattern]: digits and a full
    stop or closing parenthesis, or one quote mark, asterisk or
    hyphen, and the white space after it ([\s*]).  The result is the
    text that follows. *)
Definition enumeration_marker (s : str) : option str :=
  match s with
  | [] => None
  | c :: r =>
      if isdecimal c then
        match snd (span isdecimal s) with
        | d :: r2 =>
            if ((d =? 46) || (d =? 41))%N then Some (lstrip_by isspace r2)
            else None
        | [] => None
        end
      else if mem_char c [34%N; 39%N; 42%N; 45%N]
      then Some (lstrip_by isspace r)
      else None
  end.

(** A match of [numbered_pattern] at the position whose remaining text
    is [s]: group 1 and the length of the match. *)
Definition numbered_at (at_start : bool) (s : str) : option (str * nat) :=
  let body (t : str) : option (str * nat) :=
    match enumeration_marker t with
    | Some u =>
        match lazy_question u with
        | Some (g, rest) => Some (g, (length s - length rest)%nat)
        | None => None
        end
    | None => None
    end in
  match (if at_start then body s else None) with
  | Some m => Some m
  | None =>
      match s with
      | c :: t => if (c =? 10)%N then body t else None
      | [] => None
      end
  end.

(** [re.findall] for a pattern that matches no empty text: [match_at] gives
    the match at a position, [skip] counts the code points of the last
    match still to pass. *)
Fixpoint findall (match_at : bool -> str -> option (str * nat))
    (at_start : bool) (skip : nat) (s : str) : list str :=
  match s with
  | [] => []
  | _ :: r =>
      match skip with
      | S k => findall match_at false k r
      | O =>
          match match_at at_start s with
          | Some (g, n) => g :: findall match_at false (pred n) r
          | None => findall match_at false 0%nat r
          end
      end
  end.

(** [[^.!?]*?\?]: the text up to the first question mark, reached
    before any full stop or exclamation mark. *)
Fixpoint lazy_sentence (s : str) : option str :=
  match s with
  | [] => None
  | c :: r =>
      if (c =? 63)%N then Some [c]
      else if ((c =? 46) || (c =? 33))%N then None
      else
        match lazy_sentence r with
        | Some g => Some (c :: g)
        | None => None
        end
  end.

(** A match of [question_pattern] at a position. *)
Definition question_at (_ : bool) (s : str) : option (str * nat) :=
  match s with
  | [] => None
  | c :: r =>
      if ((65 <=? c) && (c <=? 90))%N then
        match lazy_sentence r with
        | Some g => Some (c :: g, S (length g))
        | None => None
        end
      else None
  end.

Definition mem_str (x : str) (l : list str) : bool :=
  existsb (str_eqb x) l.

(** The clean-up loop: quotes and white space removed, empty and
    repeated questions dropped. *)
Definition clean_questions (questions : list str) : list str :=
  fold_left
    (fun acc q =>
       let cleaned := strip (strip_chars [34%N; 39%N] q) in
       if truthy cleaned && negb (mem_str cleaned acc)
       then acc ++ [cleaned] else acc)
    questions [].

(** The regular-expression fall-back of [parse_follow_up_response]. *)
Definition fallback_questions (llm_response : str) : list str :=
  let questions := findall numbered_at true 0%nat llm_response in
  let questions :=
    match questions with
    | [] => findall question_at true 0%nat llm_response
    | _ => questions
    end in
  clean_questions questions.

Definition parse_follow_up_response_with
    (loads : str -> result parse_exn value) (llm_response : str)
    : result parse_exn (list str) :=
  match search_bracketed llm_response with
  | Some json_match =>
      match loads json_match with
      | Return (VList items) =>
          match all_strings items with
          | Some questions => Return questions
          | None => Return (fallback_questions llm_response)
          end
      | Return _ => Return (fallback_questions llm_response)
      | Raise JSONDecodeError => Return (fallback_questions llm_response)
      | Raise e => Raise e
      end
  | None => Return (fallback_questions llm_response)
  end.

Definition parse_follow_up_response (llm_response : str)
    : result parse_exn (list str) :=
  parse_follow_up_response_with json_loads llm_response.

End Parser.

(** ** Strict validation and generation with fall-back:
       [Follow Up agent/follow_Up_Agent.py] and
       [Follow Up agent/follow_up_agent_prompts.py] *)

Module Agent.

(** The dictionary the generation functions return. *)
Record follow_up_result := {
  follow_up_questions : list str;
  reasoning : str;
  confidence_score : Q
}.

(** The keys of the context that [generate_follow_up_questions] reads;
    [None] is an absent key. *)
Record context := {
  previous_messages : option (list value);
  current_intent : option str
}.

(** The validation criteria, as the list of checks of the source. *)
Definition criteria (questions : list str) : list (str -> bool) :=
  [ (fun q => len q >? 10);
    (fun q => endswith q (py "?"));
    (fun _ => len questions <=? 3) ].

(** [_validate_follow_up_questions] *)
Definition _validate_follow_up_questions (questions : list str) : bool :=
  match questions with
  | [] => false
  | _ =>
      forallb (fun q => forallb (fun check => check q) (criteria questions))
        questions
  end.

(** [generate_follow_up_questions] of [follow_up_agent_prompts.py] *)
Definition generate_follow_up_questions (ctx : context)
    : result Exception follow_up_result :=
  let previous_messages := default [] (previous_messages ctx) in
  match previous_messages with
  | [] =>
      Return
        {| follow_up_questions :=
             [py "Could you provide more context about your current situation?"];
           reasoning := py "Initial conversation requires more context";
           confidence_score := 0.5 |}
  | _ :: _ =>
      Return
        {| follow_up_questions := [];
           reasoning := py "No specific follow-up questions generated";
           confidence_score := 0.5 |}
  end.

Definition indent : str := py "            ".

Section Generation.

(** [json.dumps(context, indent=2)], which raises on a context that
    holds an object [json] cannot serialize, and
    [self.llm_service.generate_response]. *)
Variable dumps_context : context -> result Exception str.
Variable generate_response : str -> result Exception str.

Definition llm_prompt (context_json : str) : str :=
  nl
  ++ indent ++ py "Based on the following context, generate 2-3 precise follow-up questions:" ++ nl
  ++ indent ++ nl
  ++ indent ++ py "Context: " ++ context_json ++ nl
  ++ indent ++ nl
  ++ indent ++ py "Guidelines:" ++ nl
  ++ indent ++ py "- Ask questions that clarify or expand on the current conversation" ++ nl
  ++ indent ++ py "- Focus on extracting additional meaningful information" ++ nl
  ++ indent ++ py "- Ensure questions are specific and relevant" ++ nl
  ++ indent.

(** The lines of the answer that end with a question mark, at most
    three. *)
Definition question_lines (response : str) : list str :=
  take 3
    (List.map strip
       (List.filter
          (fun q => truthy (strip q) && endswith (strip q) (py "?"))
          (split 10%N response))).

(** [_llm_generate_follow_up_questions] *)
Definition _llm_generate_follow_up_questions (ctx : context)
    : result Exception follow_up_result :=
  let body :=
    match dumps_context ctx with
    | Raise e => Raise e
    | Return context_json =>
        match generate_response (llm_prompt context_json) with
        | Raise e => Raise e
        | Return response =>
            Return
              {| follow_up_questions := question_lines response;
                 reasoning := py "LLM-generated follow-up questions";
                 confidence_score := 0.7 |}
        end
    end in
  match body with
  | Return r => Return r
  | Raise e =>
      Return
        {| follow_up_questions := [];
           reasoning := py "LLM generation failed: " ++ text e;
           confidence_score := 0.0 |}
  end.

(** [_generate_follow_up_questions], over the generation function it
    calls first. *)
Definition _generate_follow_up_questions_with
    (generate : context -> result Exception follow_up_result)
    (ctx : context) : result Exception follow_up_result :=
  let body :=
    match generate ctx with
    | Raise e => Raise e
    | Return follow_up_result =>
        if negb (_validate_follow_up_questions
                   (follow_up_questions follow_up_result))
        then _llm_generate_follow_up_questions ctx
        else Return follow_up_result
    end in
  match body with
  | Return r => Return r
  | Raise e =>
      Return
        {| follow_up_questions := [];
           reasoning := py "Error in question generation: " ++ text e;
           confidence_score := 0.0 |}
  end.

Definition _generate_follow_up_questions (ctx : context)
    : result Exception follow_up_result :=
  _generate_follow_up_questions_with generate_follow_up_questions ctx.

End Generation.

End Agent.

(** ** Deduplication and the strategy agent:
       [FollowUpAgent/a Follow_up_Agent_implementation.py] *)

Module Strategy.

(** What the filter reads of an entry of the conversation history: its
    [follow_up_questions], if the key is present. *)
Record history_entry := {
  follow_up_questions : option (list str)
}.

(** The first loop of [_filter_duplicate_questions]. *)
Definition previous_questions (conversation_history : list history_entry)
    : list str :=
  fold_left
    (fun previous entry =>
       match follow_up_questions entry with
       | Some qs => previous ++ qs
       | None => previous
       end)
    conversation_history [].

(** [any(q.lower() == question.lower() for q in previous_questions)] *)
Definition asked_before (previous : list str) (question : str) : bool :=
  existsb (fun q => str_eqb (lower q) (lower question)) previous.

(** [_filter_duplicate_questions] *)
Definition _filter_duplicate_questions (new_questions : list str)
    (conversation_history : list history_entry) : list str :=
  let previous := previous_questions conversation_history in
  fold_left
    (fun filtered question =>
       if negb (asked_before previous question)
       then filtered ++ [question] else filtered)
    new_questions [].

(** The interface [FollowUpGenerator.generate_questions]. *)
Definition generator : Type :=
  gmap str value -> value -> Z -> result Exception (list str).

(** The arguments of one call of the strategy. *)
Record invocation := {
  call_agent_state : gmap str value;
  call_original_response : value;
  call_max_questions : Z
}.

Record FollowUpAgent := {
  generator_strategy : generator;
  max_questions : Z
}.

(** [FollowUpAgent.process]: the state returned, or the exception of
    the strategy, and the calls of the strategy made on the way. *)
Definition process (self : FollowUpAgent) (agent_state : gmap str value)
    : result Exception (gmap str value) * list invocation :=
  match agent_state !! py "primary_agent_response" with
  | None => (Return agent_state, [])
  | Some original_response =>
      let call :=
        {| call_agent_state := agent_state;
           call_original_response := original_response;
           call_max_questions := max_questions self |} in
      match generator_strategy self agent_state original_response
              (max_questions self) with
      | Raise e => (Raise e, [call])
      | Return follow_up_questions =>
          (Return
             (<[py "follow_up_questions" :=
                  VList (List.map VStr follow_up_questions)]> agent_state),
           [call])
      end
  end.

End Strategy.

(** ** The agent of [FollowUpAgent/followUpAgent.py] *)

Module Pipeline.

Import Prompt Parser.

Record AgentState := {
  agent_request : AgentSystemRequest;
  agent_response : gmap str value
}.

(** The three assignments to [state.agent_response]. *)
Definition set_follow_up (state : AgentState) (questions : list str)
    (needed : bool) (message : str) : AgentState :=
  {| agent_request := agent_request state;
     agent_response :=
       <[py "message" := VStr message]>
         (<[py "follow_up_needed" := VBool needed]>
            (<[py "follow_up_questions" := VList (List.map VStr questions)]>
               (agent_response state))) |}.

Section Execute.

Variables ARTH_SYSTEM_PROMPT USER_PORTFOLIO_SCHEMA
          MUTUAL_FUND_CATEGORY_INFO_SCHEMA : str.

(** [self.llm_service.chat] *)
Variable chat : str -> result Exception str.

(** [execute_agent] *)
Definition execute_agent (state : AgentState) : result Exception AgentState :=
  let body :=
    let prompt :=
      _build_followup_prompt ARTH_SYSTEM_PROMPT USER_PORTFOLIO_SCHEMA
        MUTUAL_FUND_CATEGORY_INFO_SCHEMA (agent_request state) in
    match chat prompt with
    | Raise e => Raise e
    | Return followup_response =>
        let parsed := parse followup_response in
        if no_follow_up_needed parsed then
          Return (set_follow_up state [] false (py "No follow-up needed."))
        else
          Return (set_follow_up state (questions parsed) true
                    (py "Follow-up questions generated."))
    end in
  match body with
  | Return s => Return s
  | Raise _ =>
      Return
        (set_follow_up state [] false
           (py "Sorry, I couldn't generate follow-up questions at this time."))
  end.

End Execute.

End Pipeline.

(** ** The specification's wording of two components

    These follow the text of the specification, to be set against the
    functions above. *)

Module Spec.

(** Section 4.5: every question is longer than 10 characters and ends
    with a question mark, and there are at most [max_questions = 3]. *)
Definition batch_passes (questions : list str) : bool :=
  forallb (fun q => (10 <? len q) && endswith q (py "?")) questions
  && (len questions <=? 3).

(** Section 4.6: a candidate is dropped iff its lower-cased trimmed
    form equals the lower-cased form of a previously asked question. *)
Definition is_duplicate (previously_asked : list str) (candidate : str) : bool :=
  existsb (fun p => str_eqb (lower p) (lower (strip candidate)))
    previously_asked.

Definition dedupe (candidates previously_asked : list str) : list str :=
  List.filter (fun c => negb (is_duplicate previously_asked c)) candidates.

(** Section 3: the invariant of [FollowUpResult], with
    [max_questions = 3]. *)
Definition result_invariant (r : Parser.parsed) : Prop :=
  (Parser.no_follow_up_needed r = true -> Parser.questions r = [])
  /\ len (Parser.questions r) <= 3.

End Spec.

(** ** The agent of [Follow Up agent/follow_Up_Agent.py] around the
       generation *)

Module Flow.

(** A message of the request; [content] is absent when the object has
    no such attribute. *)
Record message := { content : option str }.

(** The state the agent reads and writes: the request, the response
    dictionary, the attributes set on the object from outside
    ([hasattr] is membership in [attributes]) and the four attributes
    the agent assigns ([None]: not assigned). *)
Record AgentState := {
  query : str;
  messages : list message;
  completed_agents : value;
  agent_response : gmap str value;
  attributes : gmap str value;
  follow_up_questions : option (list str);
  follow_up_reasoning : option str;
  follow_up_confidence : option Q;
  error : option str
}.

(** The dictionary built by [_prepare_follow_up_context]; it has these
    six keys and no other. *)
Record prepared_context := {
  ctx_user_query : str;
  ctx_conversation_history : list message;
  ctx_completed_agents : value;
  ctx_agent_response : gmap str value;
  ctx_current_intent : value;
  ctx_additional_context : gmap str value
}.

(** What [generate_follow_up_questions] finds in that dictionary: no
    [previous_messages] key. *)
Definition as_context (c : prepared_context) : Agent.context :=
  {| Agent.previous_messages := None;
     Agent.current_intent :=
       match ctx_current_intent c with
       | VStr t => Some t
       | _ => None
       end |}.

Definition contextual_keys : list str :=
  [py "fund_data"; py "portfolio_data"; py "user_preferences";
   py "investment_goals"].

(** [_extract_additional_context] *)
Definition _extract_additional_context (state : AgentState) : gmap str value :=
  fold_left
    (fun additional_context key =>
       match attributes state !! key with
       | Some v => <[key := v]> additional_context
       | None => additional_context
       end)
    contextual_keys ∅.

Definition intent_prompt (query : str) : str :=
  nl
  ++ Agent.indent ++ py "Classify the intent of the following query in one word or short phrase:" ++ nl
  ++ Agent.indent ++ py "Query: " ++ query ++ nl
  ++ Agent.indent ++ nl
  ++ Agent.indent ++ py "Possible intents: " ++ nl
  ++ Agent.indent ++ py "- Information Seeking" ++ nl
  ++ Agent.indent ++ py "- Clarification" ++ nl
  ++ Agent.indent ++ py "- Recommendation" ++ nl
  ++ Agent.indent ++ py "- Comparison" ++ nl
  ++ Agent.indent ++ py "- Problem Solving" ++ nl
  ++ Agent.indent.

Section Execute.

Variable dumps_context : Agent.context -> result Exception str.
Variable generate_response : str -> result Exception str.

(** [_infer_intent_from_query]; [VNone] is Python's [None]. *)
Definition _infer_intent_from_query (query : str) : value :=
  match generate_response (intent_prompt query) with
  | Return response => VStr (strip response)
  | Raise _ => VNone
  end.

(** [_extract_intent] *)
Definition _extract_intent (state : AgentState) : value :=
  match agent_response state !! py "intent" with
  | Some intent => intent
  | None => _infer_intent_from_query (query state)
  end.

(** [_prepare_follow_up_context] *)
Definition _prepare_follow_up_context (state : AgentState) : prepared_context :=
  {| ctx_user_query := query state;
     ctx_conversation_history :=
       List.filter (fun msg => bool_decide (is_Some (content msg)))
         (messages state);
     ctx_completed_agents := completed_agents state;
     ctx_agent_response := agent_response state;
     ctx_current_intent := _extract_intent state;
     ctx_additional_context := _extract_additional_context state |}.

(** [execute_agent] *)
Definition execute_agent (state : AgentState) : AgentState :=
  let context := _prepare_follow_up_context state in
  match Agent._generate_follow_up_questions dumps_context generate_response
          (as_context context) with
  | Return follow_up_result =>
      match Agent.follow_up_questions follow_up_result with
      | [] => state
      | questions =>
          {| query := query state;
             messages := messages state;
             completed_agents := completed_agents state;
             agent_response := agent_response state;
             attributes := attributes state;
             follow_up_questions := Some questions;
             follow_up_reasoning := Some (Agent.reasoning follow_up_result);
             follow_up_confidence :=
               Some (Agent.confidence_score follow_up_result);
             error := error state |}
      end
  | Raise e =>
      {| query := query state;
         messages := messages state;
         completed_agents := completed_agents state;
         agent_response := agent_response state;
         attributes := attributes state;
         follow_up_questions := follow_up_questions state;
         follow_up_reasoning := follow_up_reasoning state;
         follow_up_confidence := follow_up_confidence state;
         error := Some (text e) |}
  end.

End Execute.

End Flow.

(** ** The generators of
       [FollowUpAgent/a Follow_up_Agent_implementation.py] *)

Module Generators.

(** [l[:n]] for a list. *)
Definition take_upto {A : Type} (l : list A) (n : Z) : list A :=
  if n <? 0 then take (length l - Z.to_nat (- n)) l
  else take (Z.to_nat n) l.

(** The keys of the agent state the generators read, with the types the
    code expects; [None] is an absent key.  [user_profile] and
    [portfolio_data] only reach the prompt. *)
Record agent_state := {
  user_query : option str;
  current_agent_type : option str;
  conversation_history : option (list Strategy.history_entry);
  user_profile : option value;
  portfolio_data : option value
}.

(** An exception that leaves [LLMBasedFollowUpGenerator.generate_questions]:
    one of the prompt or the backend, or one of the parser. *)
Inductive gen_exn :=
| BackendError (e : Exception)
| ParseError (e : parse_exn).

Section LLMBased.

(** The prompt [generate_follow_up_prompt] builds from the state (with
    [_extract_user_context]), the response and [max_questions]: a text
    that only the backend reads.  [generate_response] is
    [self.llm_handler.generate_response]. *)
Variable prompt_of : agent_state -> value -> Z -> result Exception str.
Variable generate_response : str -> result Exception str.

(** [LLMBasedFollowUpGenerator.generate_questions] *)
Definition llm_generate_questions (state : agent_state)
    (original_response : value) (max_questions : Z)
    : result gen_exn (list str) :=
  let conversation_history := default [] (conversation_history state) in
  match prompt_of state original_response max_questions with
  | Raise e => Raise (BackendError e)
  | Return prompt =>
      match generate_response prompt with
      | Raise e => Raise (BackendError e)
      | Return llm_response =>
          match Parser.parse_follow_up_response llm_response with
          | Raise e => Raise (ParseError e)
          | Return follow_up_questions =>
              let filtered_questions :=
                Strategy._filter_duplicate_questions follow_up_questions
                  conversation_history in
              Return (take_upto filtered_questions max_questions)
          end
      end
  end.

End LLMBased.

(** [needle in hay] for two strings. *)
Fixpoint contains (needle hay : str) : bool :=
  startswith hay needle
  || match hay with
     | [] => false
     | _ :: rest => contains needle rest
     end.

(** A dictionary from keywords to questions, in insertion order. *)
Definition mapping : Type := list (str * list str).

(** [keyword in mapping] and [mapping[keyword]] *)
Fixpoint lookup (keyword : str) (m : mapping) : option (list str) :=
  match m with
  | [] => None
  | (k, questions) :: rest =>
      if str_eqb k keyword then Some questions else lookup keyword rest
  end.

(** The mapping of [KeywordBasedFollowUpGenerator.__init__] when none,
    or an empty one, is given. *)
Definition default_mapping : mapping :=
  [ (py "portfolio",
     [py "Would you like to see your portfolio performance over time?";
      py "Are you interested in rebalancing your portfolio?";
      py "Would you like to learn more about diversification strategies?"]);
    (py "fund",
     [py "Would you like to compare this fund with similar ones?";
      py "Are you interested in the fund's historical performance?";
      py "Would you like to know about the fund's expense ratio?"]);
    (py "tax",
     [py "Would you like to explore tax-loss harvesting opportunities?";
      py "Are you interested in tax-efficient investment strategies?";
      py "Would you like to learn about tax implications for different account types?"]);
    (py "default",
     [py "Would you like to learn more about this topic?";
      py "Do you have any specific questions about your investments?";
      py "Would you like to explore other investment opportunities?"]) ].

(** [keyword_mapping or {...}] *)
Definition init_mapping (keyword_mapping : option mapping) : mapping :=
  match keyword_mapping with
  | Some (entry :: rest) => entry :: rest
  | _ => default_mapping
  end.

(** The loop that keeps the first occurrence of each question. *)
Definition unique (questions : list str) : list str :=
  fold_left
    (fun unique_questions q =>
       if Parser.mem_str q unique_questions then unique_questions
       else unique_questions ++ [q])
    questions [].

(** The questions gathered before the removal of repetitions. *)
Definition matched_questions (keyword_mapping : mapping) (agent_type : str)
    (response_text : str) : list str :=
  let questions := default [] (lookup agent_type keyword_mapping) in
  let questions :=
    questions
    ++ flat_map
         (fun '(keyword, keyword_questions) =>
            if contains keyword response_text
               && negb (str_eqb keyword (py "default"))
            then keyword_questions else [])
         keyword_mapping in
  match questions with
  | [] => default [] (lookup (py "default") keyword_mapping)
  | _ => questions
  end.

Section KeywordBased.

(** [json.dumps(original_response)], which raises on a value [json]
    cannot serialize. *)
Variable dumps : value -> result Exception str.

(** [KeywordBasedFollowUpGenerator.generate_questions] *)
Definition keyword_generate_questions (keyword_mapping : mapping)
    (state : agent_state) (original_response : value) (max_questions : Z)
    : result Exception (list str) :=
  match dumps original_response with
  | Raise e => Raise e
  | Return dumped =>
      let response_text := lower dumped in
      let agent_type := lower (default [] (current_agent_type state)) in
      Return
        (take_upto
           (unique (matched_questions keyword_mapping agent_type response_text))
           max_questions)
  end.

End KeywordBased.

End Generators.

(** ** The parsing of [Follow_Up_Agent/Follow_up_agent.py] *)

Module Gaps.

Import Generators.

Definition information_categories : list str :=
  [py "timeframe"; py "fund name"; py "investment amount";
   py "risk profile"; py "investment goals"; py "portfolio details"].

Definition clarification_categories : list str :=
  [py "comparison criteria"; py "performance metrics";
   py "specific funds"; py "investment strategy";
   py "target returns"; py "risk tolerance"].

(** The loop of both functions below: the categories that follow one of
    three trigger words in the lower-cased text. *)
Definition mentioned (first second third : str) (categories : list str)
    (response_content : str) : list str :=
  fold_left
    (fun found category =>
       if contains (first ++ category) (lower response_content)
          || contains (second ++ category) (lower response_content)
          || contains (third ++ category) (lower response_content)
       then found ++ [category] else found)
    categories [].

(** [_identify_missing_information] *)
Definition _identify_missing_information (response_content : str) : list str :=
  mentioned (py "missing ") (py "need ") (py "specify ")
    information_categories response_content.

(** [_identify_clarification_needed] *)
Definition _identify_clarification_needed (response_content : str) : list str :=
  mentioned (py "clarify ") (py "unclear ") (py "ambiguous ")
    clarification_categories response_content.

(** The dictionary returned by [_parse_follow_up_questions]. *)
Record parsed_follow_up := {
  questions : list str;
  missing_info : list str;
  clarification_needed : list str
}.

(** [_parse_follow_up_questions] *)
Definition _parse_follow_up_questions (response_content : str)
    : parsed_follow_up :=
  let lines := split 10%N (strip response_content) in
  {| questions :=
       List.map strip
         (List.filter (fun line => contains (py "?") line) lines);
     missing_info := _identify_missing_information response_content;
     clarification_needed := _identify_clarification_needed response_content |}.

End Gaps.

(** * Properties *)

(** ** Python strings *)

Section PyFacts.

Lemma len_nonneg {A : Type} (s : list A) : 0 <= len s.
Proof. unfold len. lia. Qed.

Lemma len_app {A : Type} (a b : list A) : len (a ++ b) = len a + len b.
Proof. unfold len. rewrite length_app. lia. Qed.

Lemma slice_to_nonneg (s : str) (n : Z) :
  0 <= n -> slice_to s n = take (Z.to_nat n) s.
Proof.
  intros Hn. unfold slice_to.
  destruct (Z.ltb_spec n 0) as [H | H]; [lia | reflexivity].
Qed.

Lemma slice_to_length (s : str) (n : Z) :
  0 <= n -> len (slice_to s n) <= n.
Proof.
  intros Hn. unfold slice_to, len.
  destruct (Z.ltb_spec n 0) as [H | H]; [lia |].
  rewrite length_take. lia.
Qed.

(** [s[-k:]] for [0 < k < len(s)] is the suffix of [k] code points. *)
Lemma slice_from_suffix (s : str) (k : Z) :
  0 < k -> k < len s ->
  exists older,
    s = older ++ slice_from s (- k)
    /\ len (slice_from s (- k)) = k /\ older <> [].
Proof.
  intros Hk Hlen. unfold slice_from, len in *.
  destruct (Z.ltb_spec (- k) 0) as [_ | H]; [| lia].
  replace (- - k) with k by lia.
  exists (take (length s - Z.to_nat k) s). split; [| split].
  - symmetry. apply take_drop.
  - rewrite length_drop. lia.
  - intros Hnil. apply (f_equal (@length N)) in Hnil.
    rewrite length_take in Hnil. simpl in Hnil. lia.
Qed.

Lemma startswith_app (p s : str) : startswith (p ++ s) p = true.
Proof.
  induction p as [| x p IH]; simpl; [reflexivity |].
  rewrite N.eqb_refl. exact IH.
Qed.

Lemma startswith_prefix (s p : str) :
  startswith s p = true -> exists t, s = p ++ t.
Proof.
  revert s. induction p as [| x p IH]; intros s H.
  - exists s. reflexivity.
  - destruct s as [| y s]; simpl in H; [discriminate |].
    apply andb_prop in H as [Hxy Hs]. apply N.eqb_eq in Hxy. subst y.
    destruct (IH _ Hs) as [t ->]. exists t. reflexivity.
Qed.

Lemma str_eqb_eq (a b : str) : str_eqb a b = true <-> a = b.
Proof. unfold str_eqb. apply bool_decide_eq_true. Qed.

End PyFacts.

(** ** Prompt budget *)

Section PromptFacts.

Import Prompt.

Variables A U M : str.

Lemma truncate_cases (static history : str) :
  let available := MAX_PROMPT_CHARS - len static in
  (available <= 0 -> _truncate_history_to_fit_prompt static history = [])
  /\ (0 < available -> available < len history ->
      _truncate_history_to_fit_prompt static history
      = slice_from history (- available))
  /\ (0 < available -> len history <= available ->
      _truncate_history_to_fit_prompt static history = history).
Proof.
  intros available. unfold _truncate_history_to_fit_prompt.
  fold available.
  destruct (Z.leb_spec available 0) as [H | H].
  - repeat split; intros; try reflexivity; lia.
  - destruct (Z.gtb_spec (len history) available) as [H1 | H1];
      repeat split; intros; try reflexivity; lia.
Qed.

Lemma instructions_nonempty (q : str) : 0 < len (instructions q).
Proof.
  unfold instructions. rewrite len_app. change (len nl) with 1.
  match goal with |- 0 < 1 + len ?t => pose proof (len_nonneg t) end.
  lia.
Qed.

(** C1. For every history (of any length) and every agent request, the
    prompt built by [_build_followup_prompt] has at most
    [MAX_PROMPT_CHARS = 10000] characters. *)
Theorem build_prompt_within_budget (req : AgentSystemRequest) :
  len (_build_followup_prompt A U M req) <= MAX_PROMPT_CHARS.
Proof.
  unfold _build_followup_prompt.
  set (prompt := static_prompt A U M ++ _ ++ _).
  destruct (Z.gtb_spec (len prompt) MAX_PROMPT_CHARS) as [H | H].
  - apply slice_to_length. unfold MAX_PROMPT_CHARS. lia.
  - exact H.
Qed.

(** C2. When the history is longer than the available budget
    ([MAX_PROMPT_CHARS] minus the length of the static section), what
    is kept of it is exactly its last [available] characters, some
    leading characters are dropped, and the built prompt is the static
    section followed by that suffix; when the budget is zero or
    negative the history is dropped entirely, whatever the static
    section. *)
Theorem history_keeps_trailing_suffix (req : AgentSystemRequest) :
  let static := static_prompt A U M in
  let available := MAX_PROMPT_CHARS - len static in
  let kept := _truncate_history_to_fit_prompt static (history req) in
  (0 < available -> available < len (history req) ->
     (exists older,
         history req = older ++ kept /\ older <> []
         /\ len kept = available)
     /\ kept = slice_from (history req) (- available)
     /\ _build_followup_prompt A U M req = static ++ kept)
  /\ (available <= 0 ->
      kept = []
      /\ _build_followup_prompt A U M req = slice_to static MAX_PROMPT_CHARS)
  /\ (forall static_text history_text : str,
        MAX_PROMPT_CHARS - len static_text <= 0 ->
        _truncate_history_to_fit_prompt static_text history_text = [])
  /\ (forall static_text history_text : str,
        0 < MAX_PROMPT_CHARS - len static_text ->
        MAX_PROMPT_CHARS - len static_text < len history_text ->
        exists older,
          history_text
          = older ++ _truncate_history_to_fit_prompt static_text history_text
          /\ older <> []
          /\ len (_truncate_history_to_fit_prompt static_text history_text)
             = MAX_PROMPT_CHARS - len static_text).
Proof.
  intros static available kept.
  assert (Hgen : forall static_text history_text : str,
    0 < MAX_PROMPT_CHARS - len static_text ->
    MAX_PROMPT_CHARS - len static_text < len history_text ->
    exists older,
      history_text
      = older ++ _truncate_history_to_fit_prompt static_text history_text
      /\ older <> []
      /\ len (_truncate_history_to_fit_prompt static_text history_text)
         = MAX_PROMPT_CHARS - len static_text).
  { intros st hi H0 H1.
    destruct (truncate_cases st hi) as (_ & Hcut & _).
    rewrite (Hcut H0 H1).
    destruct (slice_from_suffix hi _ H0 H1) as (older & E & L & N).
    exists older. auto. }
  split; [| split; [| split]].
  - intros H0 H1.
    destruct (truncate_cases static (history req)) as (_ & Hcut & _).
    specialize (Hcut H0 H1). fold kept in Hcut.
    destruct (Hgen static (history req) H0 H1) as (older & E & N & L).
    fold kept in E, L.
    split; [exists older; auto | split; [exact Hcut |]].
    unfold _build_followup_prompt. fold static. fold kept.
    pose proof (instructions_nonempty (query req)) as Hi.
    assert (Hlen : len (static ++ kept) = MAX_PROMPT_CHARS).
    { rewrite len_app, L. unfold available. lia. }
    destruct (Z.gtb_spec
                (len (static ++ kept ++ instructions (query req)))
                MAX_PROMPT_CHARS) as [_ | Hle].
    + rewrite slice_to_nonneg by (unfold MAX_PROMPT_CHARS; lia).
      rewrite app_assoc.
      replace (Z.to_nat MAX_PROMPT_CHARS) with (length (static ++ kept)).
      * apply take_app_length.
      * unfold len in Hlen. lia.
    + rewrite app_assoc, len_app in Hle. lia.
  - intros H0.
    destruct (truncate_cases static (history req)) as (Hdrop & _).
    specialize (Hdrop H0). fold kept in Hdrop.
    split; [exact Hdrop |].
    unfold _build_followup_prompt. fold static. fold kept.
    rewrite Hdrop. rewrite (app_nil_l (instructions (query req))).
    pose proof (instructions_nonempty (query req)) as Hi.
    destruct (Z.gtb_spec
                (len (static ++ instructions (query req)))
                MAX_PROMPT_CHARS) as [_ | Hle].
    + rewrite !slice_to_nonneg by (unfold MAX_PROMPT_CHARS; lia).
      apply take_app_le. unfold available, len in H0. lia.
    + rewrite len_app in Hle. unfold available in H0. lia.
  - intros st hi H. apply (truncate_cases st hi). exact H.
  - exact Hgen.
Qed.

End PromptFacts.

(** ** The sentinel of [FollowUpResponseParser.parse] *)

Section SentinelFacts.

Import Parser.

(** C4. When the trimmed, lower-cased text begins with the sentinel
    [no follow-up needed], [parse] returns no question and
    [no_follow_up_needed = True]; the result does not depend on the
    JSON decoder, which is not consulted. *)
Theorem sentinel_short_circuits
    (loads : str -> result parse_exn value) (response : str) :
  startswith (lower (strip response)) (py "no follow-up needed") = true ->
  parse_with loads response
  = {| questions := []; no_follow_up_needed := true |}
  /\ parse response = {| questions := []; no_follow_up_needed := true |}.
Proof.
  intros H. unfold parse, parse_with. rewrite H. split; reflexivity.
Qed.

End SentinelFacts.

(** ** Strict batch validation *)

Section ValidatorFacts.

Import Agent.

Lemma check_all_criteria (questions : list str) (q : str) :
  forallb (fun check => check q) (criteria questions) = true
  <-> 10 < len q /\ endswith q (py "?") = true /\ len questions <= 3.
Proof.
  unfold criteria. cbn [forallb]. rewrite !andb_true_iff.
  rewrite Z.gtb_ltb, Z.ltb_lt, Z.leb_le. tauto.
Qed.

(** C5, amended.  The strict validator passes a batch if and only if
    the batch is not empty, every question in it is longer than 10
    characters and ends with a question mark, and the batch holds at
    most 3 questions.  So a batch with a question of exactly 10
    characters is rejected, and a batch of one to three questions of
    11 or more characters, each ending with a question mark, is
    accepted. *)
Theorem strict_validator_iff (questions : list str) :
  (_validate_follow_up_questions questions = true
   <-> questions <> []
       /\ Forall (fun q => 10 < len q /\ endswith q (py "?") = true) questions
       /\ len questions <= 3)
  /\ (forall q, In q questions -> len q = 10 ->
      _validate_follow_up_questions questions = false)
  /\ (questions <> [] -> len questions <= 3 ->
      Forall (fun q => 11 <= len q /\ endswith q (py "?") = true) questions ->
      _validate_follow_up_questions questions = true).
Proof.
  assert (Hiff :
    _validate_follow_up_questions questions = true
    <-> questions <> []
        /\ Forall (fun q => 10 < len q /\ endswith q (py "?") = true) questions
        /\ len questions <= 3).
  { unfold _validate_follow_up_questions.
    destruct questions as [| q0 rest] eqn:E.
    - split; [discriminate | intros [H _]; contradiction].
    - rewrite <- E. rewrite forallb_forall. split.
      + intros H. split; [rewrite E; discriminate |]. split.
        * apply List.Forall_forall. intros q Hq.
          apply H, check_all_criteria in Hq. tauto.
        * assert (Hq0 : In q0 questions) by (rewrite E; left; reflexivity).
          apply H, check_all_criteria in Hq0. tauto.
      + intros (_ & Hall & Hlen) q Hq. apply check_all_criteria.
        rewrite List.Forall_forall in Hall. specialize (Hall q Hq). tauto. }
  split; [exact Hiff | split].
  - intros q Hq Hlen.
    destruct (_validate_follow_up_questions questions) eqn:V; [| reflexivity].
    destruct (proj1 Hiff eq_refl) as (_ & Hall & _).
    rewrite List.Forall_forall in Hall. specialize (Hall q Hq). lia.
  - intros Hne Hlen Hall. apply Hiff. split; [exact Hne | split; [| exact Hlen]].
    eapply List.Forall_impl; [| exact Hall]. cbn. intros q [H1 H2].
    split; [lia | exact H2].
Qed.

End ValidatorFacts.

(** ** Deduplication *)

Section DedupFacts.

Import Strategy.

Lemma fold_left_keep {X : Type} (keep : X -> bool) (l acc : list X) :
  fold_left (fun filtered x => if keep x then filtered ++ [x] else filtered)
    l acc
  = acc ++ List.filter keep l.
Proof.
  revert acc. induction l as [| x l IH]; intros acc; cbn [fold_left List.filter].
  - symmetry. apply app_nil_r.
  - rewrite IH. destruct (keep x); [| reflexivity].
    rewrite <- app_assoc. reflexivity.
Qed.

Lemma previous_questions_flat (history : list history_entry) :
  previous_questions history
  = flat_map (fun entry => default [] (follow_up_questions entry)) history.
Proof.
  unfold previous_questions.
  enough (H : forall acc,
    fold_left
      (fun previous entry =>
         match follow_up_questions entry with
         | Some qs => previous ++ qs
         | None => previous
         end) history acc
    = acc ++ flat_map (fun entry => default [] (follow_up_questions entry))
               history) by apply (H []).
  induction history as [| e history IH]; intros acc; cbn [fold_left flat_map].
  - symmetry. apply app_nil_r.
  - rewrite IH. destruct (follow_up_questions e) as [qs |]; cbn [default].
    + rewrite <- app_assoc. reflexivity.
    + reflexivity.
Qed.

Lemma asked_before_iff (previous : list str) (question : str) :
  asked_before previous question = true
  <-> exists p, In p previous /\ lower p = lower question.
Proof.
  unfold asked_before. rewrite existsb_exists.
  split; intros (p & Hp & E); exists p; (split; [exact Hp |]);
    apply str_eqb_eq; exact E.
Qed.

Lemma filter_sublist {X : Type} (keep : X -> bool) (l : list X) :
  sublist (List.filter keep l) l.
Proof.
  induction l as [| x l IH]; cbn [List.filter]; [constructor |].
  destruct (keep x); constructor; exact IH.
Qed.

(** C6, amended.  Deduplication drops a candidate if and only if its
    lower-cased form, as it stands and without trimming, equals the
    lower-cased form of some previously asked question; the candidates
    that survive keep their original order. *)
Theorem filter_duplicates_exact
    (new_questions : list str) (conversation_history : list history_entry) :
  let previous := previous_questions conversation_history in
  let kept := _filter_duplicate_questions new_questions conversation_history in
  kept = List.filter (fun q => negb (asked_before previous q)) new_questions
  /\ sublist kept new_questions
  /\ (forall q,
        In q kept
        <-> In q new_questions
            /\ ~ exists p, In p previous /\ lower p = lower q).
Proof.
  intros previous kept.
  assert (E : kept
              = List.filter (fun q => negb (asked_before previous q))
                  new_questions).
  { unfold kept, _filter_duplicate_questions. fold previous.
    apply (fold_left_keep (fun q => negb (asked_before previous q))). }
  split; [exact E | split].
  - rewrite E. apply filter_sublist.
  - intros q. rewrite E, filter_In, negb_true_iff.
    rewrite <- asked_before_iff.
    destruct (asked_before previous q); intuition congruence.
Qed.

(** C10. When the agent state has no [primary_agent_response] key,
    [process] returns the state unchanged (so no [follow_up_questions]
    field is added) and the generation strategy is not called. *)
Theorem process_without_primary_response
    (self : FollowUpAgent) (agent_state : gmap str value) :
  agent_state !! py "primary_agent_response" = None ->
  process self agent_state = (Return agent_state, []).
Proof.
  intros H. unfold process. rewrite H. reflexivity.
Qed.

End DedupFacts.

(** ** The result invariant of the parser and of [execute_agent] *)

Section InvariantFacts.

Import Parser Pipeline.

Lemma parse_with_flag (loads : str -> result parse_exn value) (response : str) :
  no_follow_up_needed (parse_with loads response) = true ->
  questions (parse_with loads response) = [].
Proof.
  unfold parse_with.
  destruct (startswith _ _); [reflexivity |].
  destruct (loads _) as [[| b | lit | t | items | pairs] | e]; cbn;
    try reflexivity; try discriminate.
  - destruct (dict_get _ _) as [[| b | lit | t | items | ps] |]; cbn;
      try reflexivity; discriminate.
  - destruct (line_questions _); cbn; [reflexivity | discriminate].
Qed.

Lemma execute_agent_shape (A U M : str) (chat : str -> result Exception str)
    (state : AgentState) :
  exists qs needed message,
    execute_agent A U M chat state
    = Return (set_follow_up state qs needed message)
    /\ (needed = false -> qs = []).
Proof.
  unfold execute_agent.
  destruct (chat _) as [followup_response | e].
  - destruct (no_follow_up_needed (parse followup_response)).
    + exists [], false, (py "No follow-up needed."). auto.
    + exists (questions (parse followup_response)), true,
        (py "Follow-up questions generated.").
      split; [reflexivity | discriminate].
  - exists [], false,
      (py "Sorry, I couldn't generate follow-up questions at this time.").
    auto.
Qed.

(** C7, amended.  For every backend response text, whenever the parser
    reports [no_follow_up_needed] its question list is empty, and
    whenever [execute_agent] stores [follow_up_needed = False] it stores
    an empty [follow_up_questions]; the number of questions is not
    bounded by [max_questions]. *)
Theorem no_follow_up_needed_has_no_questions :
  (forall (loads : str -> result parse_exn value) (response : str),
      no_follow_up_needed (parse_with loads response) = true ->
      questions (parse_with loads response) = [])
  /\ (forall (response : str),
        no_follow_up_needed (parse response) = true ->
        questions (parse response) = [])
  /\ (forall (A U M : str) (chat : str -> result Exception str)
             (state : AgentState),
        exists qs needed message,
          execute_agent A U M chat state
          = Return (set_follow_up state qs needed message)
          /\ (needed = false -> qs = [])).
Proof.
  split; [exact parse_with_flag | split].
  - intros response. apply parse_with_flag.
  - exact execute_agent_shape.
Qed.

End InvariantFacts.

(** ** Failures of the generation *)

Section FailureFacts.

Import Agent Pipeline.

Variable dumps_context : context -> result Exception str.
Variable generate_response : str -> result Exception str.



End FailureFacts.

(** ** Exceptions of [parse_follow_up_response] *)

Section EscapeFacts.

Import Parser.

(** C9 (the parsers return a list on every text and raise nothing) does
    not hold of [parse_follow_up_response], whose handler names
    [json.JSONDecodeError] only: on a bracketed integer of 4301 digits
    [json.loads] raises [ValueError], which leaves the function, while
    no [JSONDecodeError] ever does.  [FollowUpResponseParser.parse]
    handles every exception and answers the same text with a result. *)
Theorem long_integer_escapes_the_handler :
  parse_follow_up_response (py "[" ++ repeat 57%N 4301 ++ py "]")
  = Raise ValueError
  /\ parse (py "[" ++ repeat 57%N 4301 ++ py "]")
     = {| questions := []; no_follow_up_needed := true |}
  /\ (forall llm_response : str,
        parse_follow_up_response llm_response <> Raise JSONDecodeError).
Proof.
  split; [vm_compute; reflexivity | split; [vm_compute; reflexivity |]].
  intros llm_response. unfold parse_follow_up_response,
    parse_follow_up_response_with.
  destruct (search_bracketed llm_response) as [json_match |]; [| discriminate].
  destruct (json_loads json_match) as [[| b | lit | t | items | pairs] | []];
    try discriminate.
  destruct (all_strings items); discriminate.
Qed.

End EscapeFacts.

(** ** The JSON decoder *)

Section JsonFacts.

Local Open Scope nat_scope.

Lemma lstrip_by_length (p : N -> bool) (s : list N) :
  length (lstrip_by p s) <= length s.
Proof.
  induction s as [| c r IH]; simpl; [lia |].
  destruct (p c); simpl; lia.
Qed.

Lemma skip_ws_length (s : list N) : length (skip_ws s) <= length s.
Proof. apply lstrip_by_length. Qed.

Lemma skip_ws_cons (s r : list N) (c : N) :
  skip_ws s = c :: r -> length r < length s.
Proof. intros H. pose proof (skip_ws_length s) as L. rewrite H in L. simpl in L. lia. Qed.

Lemma scan_pieces_length (s : list N) :
  forall ps r, scan_pieces s = Some (ps, r) -> length r < length s.
Proof.
  remember (length s) as n eqn:En.
  assert (Hn : length s <= n) by lia. clear En.
  revert s Hn. induction n as [| n IH]; intros s Hn ps r H.
  - destruct s; [discriminate | simpl in Hn; lia].
  - destruct s as [| c s]; [discriminate |].
    cbn [scan_pieces] in H. cbn [length] in Hn.
    repeat case_match; simplify_eq; cbn [length] in *;
      try lia;
      match goal with
      | E : scan_pieces ?x = Some (_, ?y) |- _ =>
          apply IH in E; cbn [length] in *; try lia
      end.
Qed.

Lemma py_scanstring_length (s t r : list N) :
  py_scanstring s = Some (t, r) -> length r < length s.
Proof.
  unfold py_scanstring. destruct (scan_pieces s) as [[ps r'] |] eqn:E; [| discriminate].
  intros [= _ <-]. eapply scan_pieces_length, E.
Qed.

Lemma span_length (p : N -> bool) (s : list N) :
  length (snd (span p s)) <= length s.
Proof.
  induction s as [| c r IH]; cbn [span]; [simpl; lia |].
  destruct (p c); [| simpl; lia].
  destruct (span p r) as [a b]. cbn [snd length] in *. lia.
Qed.

Lemma span_length' (p : N -> bool) (s a b : list N) :
  span p s = (a, b) -> length b <= length s.
Proof. intros H. pose proof (span_length p s) as L. rewrite H in L. exact L. Qed.

Lemma match_int_length (s ds r : list N) :
  match_int s = Some (ds, r) -> length r < length s.
Proof.
  unfold match_int. destruct s as [| c s]; [discriminate |].
  repeat case_match; intros; simplify_eq; cbn [length]; try lia.
  match goal with E : span _ _ = _ |- _ => apply span_length' in E end. lia.
Qed.

Lemma match_integer_length (s ds r : list N) :
  match_integer s = Some (ds, r) -> length r < length s.
Proof.
  unfold match_integer. destruct s as [| c s]; [discriminate |].
  destruct (c =? 45)%N.
  - destruct (match_int s) as [[ds' r'] |] eqn:E; [| discriminate].
    intros [= _ <-]. apply match_int_length in E. cbn [length]. lia.
  - apply match_int_length.
Qed.

Lemma match_frac_length (s : list N) : length (snd (match_frac s)) <= length s.
Proof.
  unfold match_frac. destruct s as [| c s]; [simpl; lia |].
  repeat case_match; cbn [snd length]; try lia;
  match goal with E : span _ _ = _ |- _ => apply span_length' in E end; lia.
Qed.

Lemma match_exp_length (s : list N) : length (snd (match_exp s)) <= length s.
Proof.
  unfold match_exp. destruct s as [| c s]; [simpl; lia |].
  repeat case_match; simplify_eq; cbn [snd length]; try lia;
  match goal with E : span _ _ = _ |- _ => apply span_length' in E end;
  cbn [length] in *; lia.
Qed.

Lemma match_number_length (s i f x r : list N) :
  match_number s = Some (i, f, x, r) -> length r < length s.
Proof.
  unfold match_number.
  destruct (match_integer s) as [[i' r0] |] eqn:E; [| discriminate].
  apply match_integer_length in E.
  pose proof (match_frac_length r0) as F.
  destruct (match_frac r0) as [f' r1]. cbn [snd] in F.
  pose proof (match_exp_length r1) as X.
  destruct (match_exp r1) as [x' r2]. cbn [snd] in X.
  intros [= _ _ _ <-]. lia.
Qed.

Lemma drop_length_lt (n : nat) (s : list N) :
  0 < n -> s <> [] -> length (drop n s) < length s.
Proof.
  intros Hn Hs. rewrite length_drop. destruct s; [contradiction | simpl; lia].
Qed.

Ltac note_lengths :=
  repeat match goal with
  | E : skip_ws ?x = _ :: _ |- _ => apply skip_ws_cons in E
  | E : py_scanstring _ = Some _ |- _ => apply py_scanstring_length in E
  | E : match_number _ = Some _ |- _ => apply match_number_length in E
  end.

Ltac close_length := cbn [length] in *; rewrite ?length_drop; lia.

Ltac by_recursion IH :=
  match goal with
  | |- ?call <> Exhausted /\ _ =>
      match call with
      | _ ?f ?acc ?l =>
          let Hne := fresh "Hne" in
          let Hlt := fresh "Hlt" in
          destruct (IH acc l) as [Hne Hlt];
          [ close_length
          | split;
            [ exact Hne
            | let v := fresh "v" in
              let r := fresh "r" in
              let Hd := fresh "Hd" in
              intros v r Hd; apply Hlt in Hd; close_length ] ]
      end
  end.

(** With a budget of twice the length of the text and one more, the
    scanner does not run out of fuel, and a value it reads consumes at
    least one code point. *)
Lemma scan_enough (fuel : nat) :
  (forall s, 2 * length s + 1 <= fuel ->
     scan_once fuel s <> Exhausted
     /\ forall v r, scan_once fuel s = Done (v, r) -> length r < length s)
  /\ (forall acc s, 2 * length s + 2 <= fuel ->
     array_items fuel acc s <> Exhausted
     /\ forall v r, array_items fuel acc s = Done (v, r) -> length r < length s)
  /\ (forall acc s, 2 * length s + 2 <= fuel ->
     object_items fuel acc s <> Exhausted
     /\ forall v r, object_items fuel acc s = Done (v, r) -> length r < length s).
Proof.
  induction fuel as [| f (IHs & IHa & IHo)].
  - split; [| split]; intros; lia.
  - split; [| split].
    + intros s Hf. destruct s as [| c r].
      * cbn. split; [discriminate | intros; discriminate].
      * cbn [scan_once]. cbn [length] in Hf.
        repeat case_match; note_lengths.
        all: try (split; [discriminate | intros ? ? [= <- <-]; close_length]).
        all: try (split; [discriminate | intros; discriminate]).
        -- by_recursion IHo.
        -- by_recursion IHa.
    + intros acc s Hf. cbn [array_items].
      destruct (IHs s) as [Hne Hlt]; [lia |].
      destruct (scan_once f s) as [[v r] | e |] eqn:E; [| | congruence].
      * specialize (Hlt v r eq_refl).
        repeat case_match; note_lengths.
        all: try (split; [discriminate | intros ? ? [= <- <-]; close_length]).
        all: try (split; [discriminate | intros; discriminate]).
        pose proof (skip_ws_length l).
        match goal with
        | |- array_items f ?a ?l <> _ /\ _ =>
            destruct (IHa a l) as [Hne' Hlt']; [close_length |]
        end.
        split; [exact Hne' |]. intros v0 r0 Hd. apply Hlt' in Hd. close_length.
      * split; [discriminate | intros; discriminate].
    + intros acc s Hf. cbn [object_items].
      destruct (py_scanstring s) as [[key r] |] eqn:K;
        [| split; [discriminate | intros; discriminate]].
      apply py_scanstring_length in K.
      destruct (skip_ws r) as [| c r1] eqn:W;
        [split; [discriminate | intros; discriminate] |].
      apply skip_ws_cons in W.
      destruct (c =? 58)%N; [| split; [discriminate | intros; discriminate]].
      pose proof (skip_ws_length r1) as W1.
      destruct (IHs (skip_ws r1)) as [Hne Hlt]; [lia |].
      destruct (scan_once f (skip_ws r1)) as [[v r2] | e |] eqn:E;
        [| split; [discriminate | intros; discriminate] | congruence].
      specialize (Hlt v r2 eq_refl).
      repeat case_match; note_lengths.
      all: try (split; [discriminate | intros ? ? [= <- <-]; close_length]).
      all: try (split; [discriminate | intros; discriminate]).
      by_recursion IHo.
Qed.

(** The recursion budget of [json_loads] is never used up: its
    [Exhausted] case does not occur. *)
Lemma scan_once_never_exhausted (s : list N) :
  scan_once (fuel_for s) (skip_ws s) <> Exhausted.
Proof.
  apply (scan_enough (fuel_for s)).
  pose proof (skip_ws_length s). unfold fuel_for. lia.
Qed.

Local Open Scope N_scope.

(** A property checked on every number below [k]. *)
Lemma forall_below (P : N -> bool) (k : nat) :
  forallb P (List.map N.of_nat (seq 0 k)) = true ->
  forall n, n < N.of_nat k -> P n = true.
Proof.
  intros H n Hn. rewrite forallb_forall in H. apply H.
  apply in_map_iff. exists (N.to_nat n). split; [apply N2Nat.id |].
  apply in_seq. lia.
Qed.

Lemma hex_digit_hex_char (d : N) : d < 16 -> hex_digit (hex_char d) = Some d.
Proof.
  intros H.
  apply (forall_below (fun d => bool_decide (hex_digit (hex_char d) = Some d)) 16)
    in H; [| vm_compute; reflexivity].
  apply bool_decide_eq_true in H. exact H.
Qed.

Lemma hex4_u_escape (n : N) :
  n < 65536 ->
  hex4 (hex_char (n / 4096 mod 16)) (hex_char (n / 256 mod 16))
       (hex_char (n / 16 mod 16)) (hex_char (n mod 16)) = Some n.
Proof.
  intros H. unfold hex4.
  rewrite !hex_digit_hex_char by (apply N.mod_lt; discriminate).
  f_equal.
  pose proof (N.div_mod n 16 ltac:(discriminate)).
  pose proof (N.div_mod (n / 16) 16 ltac:(discriminate)).
  pose proof (N.div_mod (n / 16 / 16) 16 ltac:(discriminate)).
  rewrite N.Div0.div_div in *. 
  change (16 * 16) with 256 in *.
  rewrite N.Div0.div_div in *. change (256 * 16) with 4096 in *.
  assert (n / 4096 < 16) by (apply N.Div0.div_lt_upper_bound; lia).
  rewrite (N.mod_small (n / 4096) 16) by assumption.
  lia.
Qed.

Lemma land_1023_lt (x : N) : N.land x 1023 < 1024.
Proof.
  change 1023 with (N.ones 10). rewrite N.land_ones.
  apply N.mod_lt. discriminate.
Qed.

Lemma lor_surrogate_base (a : N) :
  a < 1024 ->
  N.lor 55296 a = 55296 + a /\ N.lor 56320 a = 56320 + a.
Proof.
  intros H.
  apply (forall_below
           (fun a => (N.lor 55296 a =? 55296 + a)
                     && (N.lor 56320 a =? 56320 + a)) 1024) in H;
    [| vm_compute; reflexivity].
  apply andb_prop in H as [H1 H2].
  split; apply N.eqb_eq; assumption.
Qed.

Lemma u_escape_scan (n : N) (tail : list N) (ps : list piece) (rest : list N) :
  n < 65536 ->
  scan_pieces tail = Some (ps, rest) ->
  scan_pieces (u_escape n ++ tail) = Some (Escaped n :: ps, rest).
Proof.
  intros Hn Ht. unfold u_escape. cbn [app scan_pieces].
  change (92 =? 34) with false. change (92 =? 92) with true.
  change (117 =? 117) with true. cbv iota.
  rewrite hex4_u_escape by exact Hn. rewrite Ht. reflexivity.
Qed.

(** The string scanner reads the escape of a code point as the pieces
    [escape_pieces] lists. *)
Lemma escape_char_scan (c : N) (tail : list N) (ps : list piece) (rest : list N) :
  scan_pieces tail = Some (ps, rest) ->
  scan_pieces (escape_char c ++ tail) = Some (escape_pieces c ++ ps, rest).
Proof.
  intros Ht. unfold escape_char, escape_pieces.
  repeat case_match;
    repeat match goal with
    | H : (_ =? _) = true |- _ => apply N.eqb_eq in H; subst
    end;
    try (cbn; rewrite Ht; reflexivity).
  - (* a printable character *)
    cbn [app scan_pieces].
    repeat match goal with H : (_ =? _) = false |- _ => rewrite H end.
    replace (c <? 32) with false by (symmetry; apply N.ltb_ge; 
      match goal with H : (_ && _) = true |- _ =>
        apply andb_prop in H as [H _]; apply N.leb_le in H; exact H end).
    rewrite Ht. reflexivity.
  - (* one escape *)
    apply u_escape_scan; [apply N.ltb_lt; assumption | exact Ht].
  - (* a surrogate pair *)
    rewrite <- app_assoc.
    pose proof (land_1023_lt (N.shiftr (c - 65536) 10)) as Lhi.
    pose proof (land_1023_lt (c - 65536)) as Llo.
    destruct (lor_surrogate_base _ Lhi) as [E1 _].
    destruct (lor_surrogate_base _ Llo) as [_ E2].
    apply u_escape_scan; [lia |].
    apply u_escape_scan; [lia | exact Ht].
Qed.

Lemma shiftl_shiftr_lor (n : N) :
  N.lor (N.shiftl (N.shiftr n 10) 10) (N.land n 1023) = n.
Proof.
  change 1023 with (N.ones 10). rewrite <- N.ldiff_ones_r.
  apply N.lor_ldiff_and.
Qed.

(** The pieces of a scalar value are joined into that value, whatever
    follows. *)
Lemma escape_pieces_join (c : N) (ps : list piece) :
  is_scalar c = true ->
  join_pieces (escape_pieces c ++ ps) = c :: join_pieces ps.
Proof.
  intros Hc. unfold escape_pieces.
  repeat case_match; try reflexivity.
  - (* one escape of a code point that is no surrogate *)
    cbn [app join_pieces].
    assert (Hh : is_high_surrogate c = false).
    { unfold is_scalar in Hc. unfold is_high_surrogate.
      apply andb_false_iff.
      destruct (N.ltb_spec c 55296); [left; apply N.leb_gt; lia |].
      right. apply N.leb_gt. cbn in Hc. apply andb_prop in Hc as [Hc _].
      apply N.leb_le in Hc. lia. }
    rewrite Hh. destruct ps as [| [c' | u2] rest]; reflexivity.
  - (* a surrogate pair *)
    match goal with H : (c <? 65536) = false |- _ => apply N.ltb_ge in H end.
    assert (Hc' : c < 1114112).
    { unfold is_scalar in Hc. destruct (N.ltb_spec c 55296); [lia |].
      cbn in Hc. apply andb_prop in Hc as [_ Hc]. apply N.ltb_lt in Hc. exact Hc. }
    set (n := c - 65536) in *.
    pose proof (land_1023_lt (N.shiftr n 10)) as Lhi.
    pose proof (land_1023_lt n) as Llo.
    destruct (lor_surrogate_base _ Lhi) as [E1 _].
    destruct (lor_surrogate_base _ Llo) as [_ E2].
    cbn [app join_pieces]. rewrite E1, E2.
    assert (Hhi : is_high_surrogate (55296 + N.land (N.shiftr n 10) 1023) = true).
    { unfold is_high_surrogate. apply andb_true_intro.
      split; apply N.leb_le; lia. }
    assert (Hlo : is_low_surrogate (56320 + N.land n 1023) = true).
    { unfold is_low_surrogate. apply andb_true_intro.
      split; apply N.leb_le; lia. }
    rewrite Hhi, Hlo. cbn [andb]. f_equal.
    replace (55296 + N.land (N.shiftr n 10) 1023 - 55296)
      with (N.land (N.shiftr n 10) 1023) by lia.
    replace (56320 + N.land n 1023 - 56320) with (N.land n 1023) by lia.
    assert (Hs : N.land (N.shiftr n 10) 1023 = N.shiftr n 10).
    { change 1023 with (N.ones 10). rewrite N.land_ones.
      apply N.mod_small. rewrite N.shiftr_div_pow2.
      apply N.Div0.div_lt_upper_bound. change (2 ^ 10 * 2 ^ 10) with 1048576.
      unfold n. lia. }
    rewrite Hs, shiftl_shiftr_lor. unfold n. lia.
Qed.


Local Open Scope nat_scope.

Lemma scan_pieces_encoded (q tail : list N) :
  scan_pieces (concat (List.map escape_char q) ++ dquote ++ tail)
  = Some (flat_map escape_pieces q, tail).
Proof.
  induction q as [| c q IH]; cbn [List.map concat flat_map].
  - reflexivity.
  - rewrite <- app_assoc. apply escape_char_scan. exact IH.
Qed.

Lemma join_pieces_encoded (q : list N) :
  scalar_text q -> join_pieces (flat_map escape_pieces q) = q.
Proof.
  induction 1 as [| c q Hc _ IH]; cbn [flat_map]; [reflexivity |].
  rewrite escape_pieces_join by exact Hc. rewrite IH. reflexivity.
Qed.

Lemma py_scanstring_encoded (q tail : list N) :
  scalar_text q ->
  py_scanstring (concat (List.map escape_char q) ++ dquote ++ tail)
  = Some (q, tail).
Proof.
  intros Hq. unfold py_scanstring.
  rewrite scan_pieces_encoded, join_pieces_encoded by exact Hq. reflexivity.
Qed.

Lemma encoded_head (q : list N) :
  encode_basestring_ascii q
  = 34%N :: (concat (List.map escape_char q) ++ dquote).
Proof. reflexivity. Qed.

Lemma scan_once_encoded (fuel : nat) (q tail : list N) :
  scalar_text q ->
  scan_once (S fuel) (encode_basestring_ascii q ++ tail) = Done (VStr q, tail).
Proof.
  intros Hq. rewrite encoded_head. cbn [app scan_once].
  change (34 =? 34)%N with true. cbv iota.
  rewrite <- app_assoc, py_scanstring_encoded by exact Hq. reflexivity.
Qed.

Lemma join_comma_cons (x : list N) (y : list N) (rest : list (list N)) :
  join_comma (x :: y :: rest) = x ++ py ", " ++ join_comma (y :: rest).
Proof. reflexivity. Qed.

Lemma join_comma_head (q : list N) (qs : list (list N)) :
  exists t, join_comma (List.map encode_basestring_ascii (q :: qs)) = 34%N :: t.
Proof.
  destruct qs as [| q2 qs]; cbn [List.map].
  - eexists. cbn [join_comma]. apply encoded_head.
  - eexists. rewrite join_comma_cons, encoded_head. reflexivity.
Qed.

Lemma array_items_S (f : nat) (acc : list value) (s : list N) :
  array_items (S f) acc s
  = match scan_once f s with
    | Done (v, r) =>
        match skip_ws r with
        | c :: r' =>
            if (c =? 93)%N then Done (VList (rev (v :: acc)), r')
            else if (c =? 44)%N
            then array_items f (v :: acc) (skip_ws r')
            else Invalid
        | [] => Invalid
        end
    | Failed e => Failed e
    | Exhausted => Exhausted
    end.
Proof. reflexivity. Qed.

Lemma array_items_encoded (qs : list (list N)) :
  forall (q : list N) (fuel : nat) (acc : list value) (tail : list N),
    Forall scalar_text (q :: qs) ->
    length qs + 2 <= fuel ->
    array_items fuel acc
      (join_comma (List.map encode_basestring_ascii (q :: qs)) ++ py "]" ++ tail)
    = Done (VList (rev acc ++ List.map VStr (q :: qs)), tail).
Proof.
  induction qs as [| q2 qs IH]; intros q fuel acc tail Hall Hfuel;
    destruct fuel as [| [| f]]; cbn [length] in Hfuel; try lia;
    inversion_clear Hall as [| ? ? Hq Hqs];
    rewrite array_items_S.
  - cbn [List.map join_comma].
    rewrite scan_once_encoded by exact Hq.
    reflexivity.
  - cbn [List.map]. rewrite join_comma_cons, <- app_assoc.
    rewrite scan_once_encoded by exact Hq.
    destruct (join_comma_head q2 qs) as [t Ht].
    cbn [List.map] in Ht.
    rewrite <- app_assoc.
    change (skip_ws (py ", " ++ ?x)) with (44%N :: 32%N :: x).
    cbv iota. change (44 =? 93)%N with false. change (44 =? 44)%N with true.
    cbv iota.
    change (skip_ws (32%N :: ?x)) with (skip_ws x).
    rewrite Ht. change (skip_ws ((34%N :: ?x) ++ ?y)) with ((34%N :: x) ++ y).
    rewrite <- Ht.
    change (join_comma (encode_basestring_ascii q2 :: List.map encode_basestring_ascii qs))
      with (join_comma (List.map encode_basestring_ascii (q2 :: qs))).
    rewrite IH by (assumption || lia).
    cbn [rev List.map]. rewrite <- app_assoc. reflexivity.
Qed.

Lemma join_comma_length (qs : list (list N)) :
  length qs <= length (join_comma (List.map encode_basestring_ascii qs)).
Proof.
  induction qs as [| q qs IH]; [cbn; lia |].
  destruct qs as [| q2 qs].
  - cbn [List.map join_comma]. rewrite encoded_head. cbn [length]. lia.
  - cbn [List.map] in *. rewrite join_comma_cons, encoded_head.
    cbn [length app]. rewrite !length_app. cbn [length] in *. lia.
Qed.

(** [json.loads(json.dumps(qs)) == qs] for a list of strings of scalar
    values. *)
Lemma json_loads_dumps_list (qs : list (list N)) :
  Forall scalar_text qs ->
  json_loads (dumps_list qs) = Return (VList (List.map VStr qs)).
Proof.
  intros Hall. unfold json_loads, dumps_list.
  change (py "[" ++ ?x) with (91%N :: x).
  cbn [startswith]. change (65279 =? 91)%N with false. cbn [andb].
  change (skip_ws (91%N :: ?x)) with (91%N :: x).
  unfold fuel_for. cbn [scan_once].
  change (91 =? 34)%N with false. change (91 =? 123)%N with false.
  change (91 =? 91)%N with true. cbv iota.
  destruct qs as [| q qs].
  - reflexivity.
  - destruct (join_comma_head q qs) as [t Ht]. rewrite Ht.
    change (skip_ws ((34%N :: ?x) ++ ?y)) with (34%N :: (x ++ y)).
    cbv iota. change (34 =? 93)%N with false. cbv iota.
    change (34%N :: (t ++ py "]")) with ((34%N :: t) ++ py "]" ++ []).
    rewrite <- Ht.
    rewrite (array_items_encoded qs q _ [] [] Hall).
    + reflexivity.
    + pose proof (join_comma_length (q :: qs)) as L.
      cbn [length] in *. rewrite length_app. lia.
Qed.

End JsonFacts.

(** ** Round trip of a JSON array of questions *)

Section RoundTripFacts.

Import Parser.

Lemma strip_by_bracketed (p : N -> bool) (a b : N) (m : list N) :
  p a = false -> p b = false ->
  strip_by p (a :: m ++ [b]) = a :: m ++ [b].
Proof.
  intros Ha Hb. unfold strip_by, rstrip_by.
  cbn [lstrip_by]. rewrite Ha.
  change (a :: m ++ [b]) with ((a :: m) ++ [b]).
  rewrite rev_app_distr. cbn [rev app lstrip_by]. rewrite Hb.
  cbn [rev]. rewrite rev_app_distr, rev_involutive. reflexivity.
Qed.

Lemma dumps_list_shape (qs : list (list N)) :
  dumps_list qs
  = 91%N :: join_comma (List.map encode_basestring_ascii qs) ++ [93%N].
Proof. reflexivity. Qed.

Lemma upto_last_end (c : N) (l : list N) :
  upto_last c (l ++ [c]) = Some (l ++ [c]).
Proof.
  induction l as [| x l IH]; cbn [app upto_last].
  - rewrite N.eqb_refl. reflexivity.
  - rewrite IH. reflexivity.
Qed.

Lemma search_bracketed_dumps (qs : list (list N)) :
  search_bracketed (dumps_list qs) = Some (dumps_list qs).
Proof.
  rewrite dumps_list_shape. cbn [search_bracketed].
  change (91 =? 91)%N with true. cbv iota.
  rewrite upto_last_end. reflexivity.
Qed.

Lemma all_strings_map (qs : list (list N)) :
  all_strings (List.map VStr qs) = Some qs.
Proof.
  induction qs as [| q qs IH]; cbn [List.map all_strings]; [reflexivity |].
  rewrite IH. reflexivity.
Qed.

Lemma nonblank_strings_map (qs : list (list N)) :
  forallb (fun q => truthy (strip q)) qs = true ->
  nonblank_strings (List.map VStr qs) = qs.
Proof.
  induction qs as [| q qs IH]; cbn [List.map nonblank_strings forallb];
    [reflexivity |].
  intros H. apply andb_prop in H as [Hq Hqs].
  rewrite Hq, IH by exact Hqs. reflexivity.
Qed.

Lemma scalar_texts (qs : list (list N)) :
  forallb (forallb is_scalar) qs = true -> Forall scalar_text qs.
Proof.
  rewrite forallb_forall. intros H. apply List.Forall_forall. intros q Hq.
  specialize (H q Hq). rewrite forallb_forall in H.
  apply List.Forall_forall. exact H.
Qed.

(** C8, amended.  For every list of question strings (texts of Unicode
    scalar values), the text [json.dumps] gives for the list is parsed
    by [parse_follow_up_response] into exactly those strings, in their
    original order; [FollowUpResponseParser.parse] does the same when
    every string holds a character that is not white space. *)
Theorem json_array_round_trip (qs : list (list N)) :
  forallb (forallb is_scalar) qs = true ->
  parse_follow_up_response (dumps_list qs) = Return qs
  /\ (forallb (fun q => truthy (strip q)) qs = true ->
      parse (dumps_list qs)
      = {| questions := qs; no_follow_up_needed := false |}).
Proof.
  intros Hs. apply scalar_texts in Hs.
  pose proof (json_loads_dumps_list qs Hs) as Hloads.
  split.
  - unfold parse_follow_up_response, parse_follow_up_response_with.
    rewrite search_bracketed_dumps, Hloads, all_strings_map. reflexivity.
  - intros Hb. unfold parse, parse_with.
    assert (Hstrip : strip (dumps_list qs) = dumps_list qs).
    { rewrite dumps_list_shape. apply strip_by_bracketed; reflexivity. }
    rewrite Hstrip.
    assert (Hsent : startswith (lower (dumps_list qs)) (py "no follow-up needed")
                    = false).
    { rewrite dumps_list_shape. reflexivity. }
    rewrite Hsent, Hloads, nonblank_strings_map by exact Hb. reflexivity.
Qed.

End RoundTripFacts.

(** ** The cases of the repository's tests *)

Section RepositoryTests.

Import Parser.

(** [test_parse_follow_up_response]: a JSON array. *)
Example parse_json_response :
  parse_follow_up_response
    (py "[" ++ quoted (py "Question 1?") ++ py ", "
     ++ quoted (py "Question 2?") ++ py ", "
     ++ quoted (py "Question 3?") ++ py "]")
  = Return [py "Question 1?"; py "Question 2?"; py "Question 3?"].
Proof. vm_compute. reflexivity. Qed.

(** [test_parse_follow_up_response]: a JSON array inside prose. *)
Example parse_mixed_response :
  parse_follow_up_response
    (nl ++ py "        Here are some follow-up questions:" ++ nl
     ++ py "        " ++ nl
     ++ py "        [" ++ nl
     ++ py "          " ++ quoted (py "Question 1?") ++ py "," ++ nl
     ++ py "          " ++ quoted (py "Question 2?") ++ py "," ++ nl
     ++ py "          " ++ quoted (py "Question 3?") ++ nl
     ++ py "        ]" ++ nl
     ++ py "        ")
  = Return [py "Question 1?"; py "Question 2?"; py "Question 3?"].
Proof. vm_compute. reflexivity. Qed.

(** [test_parse_follow_up_response]: a numbered list, read by the second
    pattern since the lines are indented. *)
Example parse_numbered_response :
  parse_follow_up_response
    (nl ++ py "        Here are some follow-up questions:" ++ nl
     ++ py "        " ++ nl
     ++ py "        1. Question 1?" ++ nl
     ++ py "        2. Question 2?" ++ nl
     ++ py "        3. Question 3?" ++ nl
     ++ py "        ")
  = Return [py "Question 1?"; py "Question 2?"; py "Question 3?"].
Proof. vm_compute. reflexivity. Qed.

(** A numbered and bulleted list at the start of the lines, read by the
    first pattern. *)
Example parse_enumerated_response :
  parse_follow_up_response
    (py "1. What is it?" ++ nl
     ++ py "2) Why so?" ++ nl
     ++ py "- " ++ quoted (py "How much?") ++ nl
     ++ py "* no question" ++ nl)
  = Return [py "What is it?"; py "Why so?"; py "How much?"].
Proof. vm_compute. reflexivity. Qed.

(** [test_question_validation] *)
Example validate_valid_questions :
  Agent._validate_follow_up_questions
    [py "Could you provide more details about your investment goals?";
     py "What specific mutual funds are you interested in?"] = true.
Proof. vm_compute. reflexivity. Qed.

Example validate_invalid_questions :
  Agent._validate_follow_up_questions
    [py "Short"; py "No question mark"; repeat 65%N 500] = false.
Proof. vm_compute. reflexivity. Qed.

(** [test_llm_based_generator]: the question asked before is filtered
    out. *)
Example filter_previous_question :
  Strategy._filter_duplicate_questions
    [py "Previous question?"; py "New question?"; py "Another new question?"]
    [{| Strategy.follow_up_questions := Some [py "Previous question?"] |}]
  = [py "New question?"; py "Another new question?"].
Proof. vm_compute. reflexivity. Qed.

(** The answer the prompt of [followUpAgent.py] asks for. *)
Example parse_questions_object :
  parse
    (py "{" ++ quoted (py "questions") ++ py ": ["
     ++ quoted (py "First follow-up question?") ++ py ", "
     ++ quoted (py "Second follow-up question?") ++ py "]}")
  = {| questions := [py "First follow-up question?";
                     py "Second follow-up question?"];
       no_follow_up_needed := false |}.
Proof. vm_compute. reflexivity. Qed.

(** An answer that is no JSON: the lines that end with a question mark. *)
Example parse_bulleted_lines :
  parse
    (py "- What is your goal?" ++ nl
     ++ py "- not a question" ++ nl
     ++ py "- How long will you stay invested?")
  = {| questions := [py "What is your goal?";
                     py "How long will you stay invested?"];
       no_follow_up_needed := false |}.
Proof. vm_compute. reflexivity. Qed.

End RepositoryTests.

(** ** Instances and counterexamples of the properties above *)

(** A static section of 9997 characters leaves room for 3 characters of
    history: of [abcde], the prompt keeps [cde]. *)
Lemma history_keeps_trailing_suffix_witness :
  let A := repeat 120%N (Z.to_nat 9786) in
  let req := {| Prompt.history := py "abcde"; Prompt.query := py "q" |} in
  0 < Prompt.MAX_PROMPT_CHARS - len (Prompt.static_prompt A [] [])
  /\ Prompt.MAX_PROMPT_CHARS - len (Prompt.static_prompt A [] [])
     < len (Prompt.history req)
  /\ Prompt._build_followup_prompt A [] [] req
     = Prompt.static_prompt A [] [] ++ py "cde".
Proof.
  intros A req.
  assert (H0 : 0 < Prompt.MAX_PROMPT_CHARS - len (Prompt.static_prompt A [] []))
    by (vm_compute; reflexivity).
  assert (H1 : Prompt.MAX_PROMPT_CHARS - len (Prompt.static_prompt A [] [])
               < len (Prompt.history req))
    by (vm_compute; reflexivity).
  split; [exact H0 | split; [exact H1 |]].
  destruct (history_keeps_trailing_suffix A [] [] req) as [H _].
  destruct (H H0 H1) as (_ & Hk & Hb).
  rewrite Hb, Hk. vm_compute. reflexivity.
Defined.

Lemma sentinel_short_circuits_witness :
  startswith (lower (strip (py "  No follow-up needed. ")))
    (py "no follow-up needed") = true
  /\ Parser.parse (py "  No follow-up needed. ")
     = {| Parser.questions := []; Parser.no_follow_up_needed := true |}.
Proof.
  assert (H : startswith (lower (strip (py "  No follow-up needed. ")))
                (py "no follow-up needed") = true)
    by (vm_compute; reflexivity).
  split; [exact H |].
  exact (proj2 (sentinel_short_circuits json_loads _ H)).
Defined.

Lemma strict_validator_iff_witness :
  [py "0123456789?"] <> []
  /\ len [py "0123456789?"] <= 3
  /\ Agent._validate_follow_up_questions [py "0123456789?"] = true
  /\ Agent._validate_follow_up_questions [py "012345678?"] = false.
Proof.
  assert (H0 : [py "0123456789?"] <> []) by discriminate.
  assert (H1 : len [py "0123456789?"] <= 3) by (vm_compute; discriminate).
  split; [exact H0 | split; [exact H1 | split]].
  - destruct (strict_validator_iff [py "0123456789?"]) as (_ & _ & H).
    apply (H H0 H1). constructor; [| constructor].
    split; [vm_compute; discriminate | vm_compute; reflexivity].
  - destruct (strict_validator_iff [py "012345678?"]) as (_ & H & _).
    apply (H (py "012345678?")); [left; reflexivity | vm_compute; reflexivity].
Defined.

(** The claim admits the empty batch, the validator rejects it. *)
Lemma empty_batch_is_rejected :
  ~ (Agent._validate_follow_up_questions [] = true
     <-> Spec.batch_passes [] = true).
Proof.
  intros [_ H]. specialize (H eq_refl). discriminate H.
Qed.

(** A candidate that differs from an asked question by a leading space:
    the specification drops it, the code keeps it. *)
Lemma untrimmed_duplicate_is_kept :
  let asked := [{| Strategy.follow_up_questions :=
                     Some [py "what is your goal?"] |}] in
  let candidate := py " What is your goal?" in
  Spec.dedupe [candidate] (Strategy.previous_questions asked) = []
  /\ Strategy._filter_duplicate_questions [candidate] asked = [candidate].
Proof.
  split; vm_compute; reflexivity.
Qed.

Lemma process_without_primary_response_witness :
  let self :=
    {| Strategy.generator_strategy := fun _ _ _ => Return [py "And then?"];
       Strategy.max_questions := 3 |} in
  let agent_state : gmap (list N) value :=
    {[ py "user_query" := VStr (py "How is my portfolio performing?") ]} in
  agent_state !! py "primary_agent_response" = None
  /\ Strategy.process self agent_state = (Return agent_state, []).
Proof.
  intros self agent_state.
  assert (H : agent_state !! py "primary_agent_response" = None)
    by (vm_compute; reflexivity).
  split; [exact H |].
  exact (process_without_primary_response self agent_state H).
Defined.

Lemma no_follow_up_needed_has_no_questions_witness :
  Parser.no_follow_up_needed (Parser.parse (py "Nothing to add.")) = true
  /\ Parser.questions (Parser.parse (py "Nothing to add.")) = [].
Proof.
  assert (H : Parser.no_follow_up_needed (Parser.parse (py "Nothing to add."))
              = true) by (vm_compute; reflexivity).
  split; [exact H |].
  destruct no_follow_up_needed_has_no_questions as (_ & Hparse & _).
  exact (Hparse (py "Nothing to add.") H).
Defined.

(** Four questions in a JSON array, one more than [max_questions]: the
    parser returns all four. *)
Lemma four_questions_exceed_max_questions :
  let response :=
    py "[" ++ quoted (py "What is your goal?")
    ++ py ", " ++ quoted (py "What is your horizon?")
    ++ py ", " ++ quoted (py "How much can you invest monthly?")
    ++ py ", " ++ quoted (py "What is your risk tolerance?") ++ py "]" in
  len (Parser.questions (Parser.parse response)) = 4
  /\ ~ Spec.result_invariant (Parser.parse response).
Proof.
  cbv zeta. split; [vm_compute; reflexivity |].
  intros [_ H]. vm_compute in H. apply H. reflexivity.
Qed.



(** Scenario A of the specification. *)
Lemma json_array_round_trip_witness :
  let qs := [py "How much can you invest monthly?";
             py "What is your risk tolerance?"] in
  forallb (forallb is_scalar) qs = true
  /\ forallb (fun q => truthy (strip q)) qs = true
  /\ dumps_list qs
     = py "[" ++ quoted (py "How much can you invest monthly?")
       ++ py ", " ++ quoted (py "What is your risk tolerance?") ++ py "]"
  /\ Parser.parse_follow_up_response (dumps_list qs) = Return qs
  /\ Parser.parse (dumps_list qs)
     = {| Parser.questions := qs; Parser.no_follow_up_needed := false |}.
Proof.
  intros qs.
  assert (H1 : forallb (forallb is_scalar) qs = true) by (vm_compute; reflexivity).
  assert (H2 : forallb (fun q => truthy (strip q)) qs = true)
    by (vm_compute; reflexivity).
  destruct (json_array_round_trip qs H1) as [Ha Hb].
  split; [exact H1 | split; [exact H2 | split; [vm_compute; reflexivity |]]].
  split; [exact Ha | exact (Hb H2)].
Defined.

(** A question that is not empty but blank: [parse] drops it.  A
    question made of the two surrogate code points of U+1F600: both
    parsers return the single code point instead. *)
Lemma blank_question_is_dropped :
  dumps_list [py " "] = py "[" ++ quoted (py " ") ++ py "]"
  /\ py " " <> []
  /\ Parser.parse (dumps_list [py " "])
     = {| Parser.questions := []; Parser.no_follow_up_needed := false |}
  /\ Parser.questions (Parser.parse (dumps_list [py " "])) <> [py " "]
  /\ Parser.parse_follow_up_response (dumps_list [[55357%N; 56832%N]])
     = Return [[128512%N]].
Proof.
  split; [vm_compute; reflexivity | split; [discriminate | split]].
  - vm_compute. reflexivity.
  - split; [vm_compute; discriminate | vm_compute; reflexivity].
Qed.

(** * Further properties of the code *)

(** ** Trimming *)

Section StripFacts.

Variable p : N -> bool.

Lemma lstrip_by_head (s : list N) :
  match lstrip_by p s with
  | [] => True
  | c :: _ => p c = false
  end.
Proof.
  induction s as [| c s IH]; cbn [lstrip_by]; [exact I |].
  destruct (p c) eqn:E; [exact IH | exact E].
Qed.

Lemma lstrip_by_stop (c : N) (s : list N) :
  p c = false -> lstrip_by p (c :: s) = c :: s.
Proof. intros H. cbn [lstrip_by]. rewrite H. reflexivity. Qed.

Lemma lstrip_by_fixed (s : list N) :
  lstrip_by p (lstrip_by p s) = lstrip_by p s.
Proof.
  pose proof (lstrip_by_head s) as H.
  destruct (lstrip_by p s) as [| c t]; [reflexivity |].
  apply lstrip_by_stop. exact H.
Qed.

Lemma lstrip_by_suffix (s : list N) :
  exists dropped, s = dropped ++ lstrip_by p s /\ forallb p dropped = true.
Proof.
  induction s as [| c s (d & E & F)]; cbn [lstrip_by].
  - exists []. split; reflexivity.
  - destruct (p c) eqn:Hc.
    + exists (c :: d). cbn [app forallb]. rewrite Hc, F. split; [congruence | reflexivity].
    + exists []. split; reflexivity.
Qed.

Lemma lstrip_by_last (m : list N) (b : N) :
  p b = false -> exists m', lstrip_by p (m ++ [b]) = m' ++ [b].
Proof.
  intros Hb. induction m as [| c m (m' & IH)]; cbn [app lstrip_by].
  - rewrite Hb. exists []. reflexivity.
  - destruct (p c).
    + exists m'. exact IH.
    + exists (c :: m). reflexivity.
Qed.

Lemma rstrip_by_last (m : list N) (b : N) :
  p b = false -> rstrip_by p (m ++ [b]) = m ++ [b].
Proof.
  intros Hb. unfold rstrip_by. rewrite rev_app_distr. cbn [rev app].
  rewrite lstrip_by_stop by exact Hb.
  change (b :: rev m) with ([b] ++ rev m).
  rewrite rev_app_distr, rev_involutive. reflexivity.
Qed.

(** A text that ends with a code point that is not stripped keeps it. *)
Lemma strip_by_last (m : list N) (b : N) :
  p b = false -> exists m', strip_by p (m ++ [b]) = m' ++ [b].
Proof.
  intros Hb. unfold strip_by.
  destruct (lstrip_by_last m b Hb) as [m' ->].
  exists m'. apply rstrip_by_last. exact Hb.
Qed.

Lemma rstrip_by_fixed (s : list N) :
  rstrip_by p (rstrip_by p s) = rstrip_by p s.
Proof.
  unfold rstrip_by. rewrite rev_involutive, lstrip_by_fixed. reflexivity.
Qed.

Lemma rstrip_by_keeps_head (c : N) (t : list N) :
  p c = false -> exists t', rstrip_by p (c :: t) = c :: t'.
Proof.
  intros Hc. unfold rstrip_by. cbn [rev].
  destruct (lstrip_by_last (rev t) c Hc) as [m' ->].
  exists (rev m'). rewrite rev_app_distr. reflexivity.
Qed.

Lemma rstrip_by_nil : rstrip_by p [] = [].
Proof. reflexivity. Qed.

(** Stripping twice is stripping once. *)
Lemma strip_by_fixed (s : list N) :
  strip_by p (strip_by p s) = strip_by p s.
Proof.
  unfold strip_by at 1.
  assert (H : lstrip_by p (strip_by p s) = strip_by p s).
  { unfold strip_by. pose proof (lstrip_by_head s) as Hh.
    destruct (lstrip_by p s) as [| c t]; [reflexivity |].
    destruct (rstrip_by_keeps_head c t Hh) as [t' ->].
    apply lstrip_by_stop. exact Hh. }
  rewrite H. unfold strip_by. apply rstrip_by_fixed.
Qed.

(** Stripping leaves a text untouched when both its ends stay. *)
Lemma strip_by_between (pre m post : list N) (a b : N) :
  forallb p pre = true -> forallb p post = true ->
  p a = false -> p b = false ->
  strip_by p (pre ++ (a :: m ++ [b]) ++ post) = a :: m ++ [b].
Proof.
  intros Hpre Hpost Ha Hb. unfold strip_by.
  assert (L : forall x, lstrip_by p (pre ++ a :: x) = a :: x).
  { intros x. induction pre as [| c pre' IH]; cbn [app lstrip_by].
    - rewrite Ha. reflexivity.
    - cbn [forallb] in Hpre. apply andb_prop in Hpre as [Hc Hr].
      rewrite Hc. apply IH. exact Hr. }
  cbn [app]. rewrite L. unfold rstrip_by.
  change (a :: (m ++ [b]) ++ post) with ((a :: m ++ [b]) ++ post).
  rewrite rev_app_distr.
  assert (R : forall y, lstrip_by p (rev post ++ b :: y) = b :: y).
  { intros y. assert (Hrev : forallb p (rev post) = true).
    { rewrite forallb_forall in *. intros x Hx. apply Hpost.
      apply in_rev. exact Hx. }
    induction (rev post) as [| c q IH]; cbn [app lstrip_by].
    - rewrite Hb. reflexivity.
    - cbn [forallb] in Hrev. apply andb_prop in Hrev as [Hc Hr].
      rewrite Hc. apply IH. exact Hr. }
  change (a :: m ++ [b]) with ((a :: m) ++ [b]).
  rewrite rev_app_distr. cbn [rev app] in *. rewrite R.
  change (b :: rev m ++ [a]) with ([b] ++ (rev m ++ [a])).
  rewrite rev_app_distr, rev_app_distr, rev_involutive. reflexivity.
Qed.

End StripFacts.

Lemma endswith_last (s : list N) (b : N) :
  endswith s [b] = true <-> exists m, s = m ++ [b].
Proof.
  unfold endswith. cbn [rev app startswith]. split.
  - destruct (rev s) as [| y r] eqn:E; [discriminate |].
    rewrite andb_true_r. intros H. apply N.eqb_eq in H. subst y.
    exists (rev r). apply (f_equal (@rev N)) in E.
    rewrite rev_involutive in E. exact E.
  - intros [m ->]. rewrite rev_app_distr. cbn [rev app].
    rewrite N.eqb_refl. reflexivity.
Qed.

(** ** More on the prompt budget *)

Section PromptExtras.

Import Prompt.

(** X1.  [_truncate_history_to_fit_prompt] always returns a trailing
    part of the history, never longer than the room the static section
    leaves (and empty when there is none); a history that fits is
    returned as it is, and truncating again changes nothing. *)
Theorem truncated_history_fits (static history : list N) :
  let available := MAX_PROMPT_CHARS - len static in
  let kept := _truncate_history_to_fit_prompt static history in
  (exists older, history = older ++ kept)
  /\ len kept <= Z.max 0 available
  /\ (len history <= available -> kept = history)
  /\ _truncate_history_to_fit_prompt static kept = kept.
Proof.
  intros available kept.
  destruct (truncate_cases static history) as (Hdrop & Hcut & Hkeep).
  fold available in Hdrop, Hcut, Hkeep. fold kept in Hdrop, Hcut, Hkeep.
  pose proof (len_nonneg history) as Hh.
  assert (Hfix : forall k, len k <= Z.max 0 available ->
                 _truncate_history_to_fit_prompt static k = k).
  { intros k Hk. destruct (truncate_cases static k) as (Hd & _ & Hkp).
    fold available in Hd, Hkp. pose proof (len_nonneg k).
    destruct (Z.le_gt_cases available 0) as [H0 | H0].
    - rewrite (Hd H0). destruct k; [reflexivity | unfold len in *; simpl in *; lia].
    - apply Hkp; lia. }
  destruct (Z.le_gt_cases available 0) as [H0 | H0].
  - rewrite (Hdrop H0) in *. repeat split.
    + exists history. symmetry. apply app_nil_r.
    + unfold len; simpl; lia.
    + intros Hle. destruct history; [reflexivity | unfold len in *; simpl in *; lia].
    + apply Hfix. unfold len; simpl; lia.
  - destruct (Z.le_gt_cases (len history) available) as [H1 | H1].
    + rewrite (Hkeep H0 H1) in *. repeat split.
      * exists []. reflexivity.
      * lia.
      * apply Hfix. lia.
    + destruct (slice_from_suffix history available H0 H1) as (older & E & L & _).
      rewrite (Hcut H0 H1) in *. repeat split.
      * exists older. exact E.
      * lia.
      * intros Hle. lia.
      * apply Hfix. lia.
Qed.

Variables A U M : list N.

(** X2.  When the static section, the whole history and the
    instructions together stay within [MAX_PROMPT_CHARS],
    [_build_followup_prompt] returns exactly their concatenation:
    nothing is cut. *)
Theorem prompt_unchanged_when_it_fits (req : AgentSystemRequest) :
  len (static_prompt A U M ++ history req ++ instructions (query req))
  <= MAX_PROMPT_CHARS ->
  _build_followup_prompt A U M req
  = static_prompt A U M ++ history req ++ instructions (query req).
Proof.
  intros Hfit. rewrite !len_app in Hfit.
  pose proof (instructions_nonempty (query req)) as Hi.
  pose proof (len_nonneg (history req)) as Hh.
  destruct (truncate_cases (static_prompt A U M) (history req)) as (_ & _ & Hkeep).
  unfold _build_followup_prompt. rewrite Hkeep by lia.
  destruct (Z.gtb_spec
              (len (static_prompt A U M ++ history req ++ instructions (query req)))
              MAX_PROMPT_CHARS) as [Hgt | _]; [| reflexivity].
  rewrite !len_app in Hgt. lia.
Qed.

End PromptExtras.

Lemma prompt_unchanged_when_it_fits_witness :
  let req := {| Prompt.history := py "user: hello"; Prompt.query := py "What is a fund?" |} in
  len (Prompt.static_prompt (py "persona") [] []
       ++ Prompt.history req ++ Prompt.instructions (Prompt.query req))
  <= Prompt.MAX_PROMPT_CHARS
  /\ Prompt._build_followup_prompt (py "persona") [] [] req
     = Prompt.static_prompt (py "persona") [] []
       ++ py "user: hello" ++ Prompt.instructions (py "What is a fund?").
Proof.
  intros req.
  assert (H : len (Prompt.static_prompt (py "persona") [] []
                   ++ Prompt.history req ++ Prompt.instructions (Prompt.query req))
              <= Prompt.MAX_PROMPT_CHARS) by (vm_compute; discriminate).
  split; [exact H |].
  exact (prompt_unchanged_when_it_fits (py "persona") [] [] req H).
Defined.

(** ** More on the parsers *)

Section ParserExtras.

Import Parser.

Lemma nonblank_strings_In (items : list value) (q : list N) :
  In q (nonblank_strings items) -> truthy (strip q) = true.
Proof.
  induction items as [| v items IH]; cbn [nonblank_strings]; [contradiction |].
  destruct v as [| b | lit | t | l | ps]; try exact IH.
  destruct (truthy (strip t)) eqn:E; [| exact IH].
  intros [<- | H]; [exact E | exact (IH H)].
Qed.

Lemma strip_keeps_question_mark (q : list N) :
  endswith q (py "?") = true -> exists m, strip q = m ++ [63%N].
Proof.
  intros H. apply (endswith_last q 63%N) in H as [m ->].
  apply strip_by_last. reflexivity.
Qed.

Lemma line_questions_In (response q : list N) :
  In q (line_questions response) ->
  endswith q (py "?") = true /\ strip_chars (py "- ") q = q.
Proof.
  unfold line_questions. rewrite filter_In, in_map_iff.
  intros [(l & <- & _) H]. split; [exact H |].
  apply strip_by_fixed.
Qed.

(** X3.  Whatever the backend answered and whatever the JSON decoder
    did, no question returned by [FollowUpResponseParser.parse] is empty
    or made of white space only. *)
Theorem parsed_questions_are_not_blank
    (loads : list N -> result parse_exn value) (response q : list N) :
  In q (questions (parse_with loads response)) ->
  truthy (strip q) = true.
Proof.
  unfold parse_with.
  destruct (startswith _ _); [contradiction |].
  destruct (loads _) as [[| b | lit | t | items | pairs] | e]; cbn;
    try contradiction.
  - apply nonblank_strings_In.
  - destruct (dict_get _ _) as [[| b | lit | t | items | ps] |]; cbn;
      try contradiction.
    apply nonblank_strings_In.
  - intros H.
    assert (Hq : In q (line_questions (strip response))).
    { destruct (line_questions (strip response)); [contradiction | exact H]. }
    apply line_questions_In in Hq as [Hq _].
    destruct (strip_keeps_question_mark q Hq) as [m ->].
    destruct m; reflexivity.
Qed.

(** X4.  When the answer is no sentinel and the JSON decoder raises,
    the questions of [parse] are the lines of the trimmed answer read by
    the fall-back: each ends with a question mark and has no hyphen or
    space left at either end. *)
Theorem line_fallback_questions
    (loads : list N -> result parse_exn value) (response q : list N)
    (e : parse_exn) :
  startswith (lower (strip response)) (py "no follow-up needed") = false ->
  loads (strip response) = Raise e ->
  questions (parse_with loads response) = line_questions (strip response)
  /\ (In q (questions (parse_with loads response)) ->
      endswith q (py "?") = true /\ strip_chars (py "- ") q = q).
Proof.
  intros Hs He. unfold parse_with. rewrite Hs, He.
  assert (E : questions
                match line_questions (strip response) with
                | [] => {| questions := []; no_follow_up_needed := true |}
                | q0 :: l => {| questions := q0 :: l; no_follow_up_needed := false |}
                end = line_questions (strip response)).
  { destruct (line_questions (strip response)); reflexivity. }
  split; [exact E |]. rewrite E. apply line_questions_In.
Qed.

(** X5.  [parse] does not see the white space around an answer: it
    gives the same result on a text and on the trimmed text, so an
    answer between leading and trailing white space is parsed as the
    answer alone. *)
Theorem parse_ignores_surrounding_space
    (loads : list N -> result parse_exn value) (response : list N) :
  parse_with loads response = parse_with loads (strip response)
  /\ (forall pre post m a b,
        forallb isspace pre = true -> forallb isspace post = true ->
        isspace a = false -> isspace b = false ->
        parse_with loads (pre ++ (a :: m ++ [b]) ++ post)
        = parse_with loads (a :: m ++ [b])).
Proof.
  assert (H : forall r, parse_with loads r = parse_with loads (strip r)).
  { intros r. unfold parse_with, strip. rewrite strip_by_fixed. reflexivity. }
  split; [apply H |].
  intros pre post m a b Hpre Hpost Ha Hb.
  rewrite (H (pre ++ _ ++ post)), (H (a :: m ++ [b])).
  f_equal. unfold strip.
  rewrite (strip_by_between isspace pre m post a b) by assumption.
  symmetry.
  pose proof (strip_by_between isspace [] m [] a b eq_refl eq_refl Ha Hb) as E.
  cbn [app] in E. rewrite app_nil_r in E. exact E.
Qed.

End ParserExtras.

Section FallbackExtras.

Import Parser.

Lemma findall_In (match_at : bool -> list N -> option (list N * nat))
    (P : list N -> Prop) :
  (forall b s g n, match_at b s = Some (g, n) -> P g) ->
  forall s b k g, In g (findall match_at b k s) -> P g.
Proof.
  intros Hm. induction s as [| c s IH]; intros b k g; cbn [findall];
    [contradiction |].
  destruct k as [| k]; [| apply IH].
  destruct (match_at b (c :: s)) as [[g0 n] |] eqn:E; [| apply IH].
  intros [<- | H]; [eapply Hm, E | eapply IH, H].
Qed.

Lemma lazy_question_ends (s g rest : list N) :
  lazy_question s = Some (g, rest) -> exists m, g = m ++ [63%N].
Proof.
  revert g rest. induction s as [| c s IH]; intros g rest; cbn [lazy_question];
    [discriminate |].
  destruct (N.eqb_spec c 63) as [-> | _].
  - intros [= <- _]. exists []. reflexivity.
  - destruct (c =? 10)%N; [discriminate |].
    destruct (lazy_question s) as [[g' rest'] |]; [| discriminate].
    intros [= <- _]. destruct (IH g' rest' eq_refl) as [m ->].
    exists (c :: m). reflexivity.
Qed.

Lemma lazy_sentence_ends (s g : list N) :
  lazy_sentence s = Some g -> exists m, g = m ++ [63%N].
Proof.
  revert g. induction s as [| c s IH]; intros g; cbn [lazy_sentence];
    [discriminate |].
  destruct (N.eqb_spec c 63) as [-> | _].
  - intros [= <-]. exists []. reflexivity.
  - destruct ((c =? 46) || (c =? 33))%N; [discriminate |].
    destruct (lazy_sentence s) as [g' |]; [| discriminate].
    intros [= <-]. destruct (IH g' eq_refl) as [m ->].
    exists (c :: m). reflexivity.
Qed.

Lemma numbered_at_ends (b : bool) (s g : list N) (n : nat) :
  numbered_at b s = Some (g, n) -> exists m, g = m ++ [63%N].
Proof.
  unfold numbered_at.
  assert (Hbody : forall t g n,
    match enumeration_marker t with
    | Some u =>
        match lazy_question u with
        | Some (g, rest) => Some (g, (length s - length rest)%nat)
        | None => None
        end
    | None => None
    end = Some (g, n) -> exists m, g = m ++ [63%N]).
  { intros t g0 n0. destruct (enumeration_marker t) as [u |]; [| discriminate].
    destruct (lazy_question u) as [[g1 rest] |] eqn:E; [| discriminate].
    intros [= <- _]. eapply lazy_question_ends, E. }
  destruct b.
  - destruct (match enumeration_marker s with Some _ => _ | None => _ end)
      as [[g0 n0] |] eqn:E.
    + intros [= <- _]. eapply Hbody, E.
    + destruct s as [| c t]; [discriminate |].
      destruct (c =? 10)%N; [apply Hbody | discriminate].
  - destruct s as [| c t]; [discriminate |].
    destruct (c =? 10)%N; [apply Hbody | discriminate].
Qed.

Lemma question_at_ends (b : bool) (s g : list N) (n : nat) :
  question_at b s = Some (g, n) -> exists m, g = m ++ [63%N].
Proof.
  unfold question_at. destruct s as [| c r]; [discriminate |].
  destruct ((65 <=? c) && (c <=? 90))%N; [| discriminate].
  destruct (lazy_sentence r) as [g' |] eqn:E; [| discriminate].
  intros [= <- _]. destruct (lazy_sentence_ends r g' E) as [m ->].
  exists (c :: m). reflexivity.
Qed.

Lemma mem_str_In (x : list N) (l : list (list N)) :
  mem_str x l = true <-> In x l.
Proof.
  unfold mem_str. rewrite existsb_exists. split.
  - intros (y & Hy & E). apply str_eqb_eq in E. subst y. exact Hy.
  - intros H. exists x. split; [exact H | apply str_eqb_eq; reflexivity].
Qed.

Lemma NoDup_snoc {X : Type} (l : list X) (x : X) :
  List.NoDup l -> ~ In x l -> List.NoDup (l ++ [x]).
Proof.
  induction 1 as [| y l Hy Hl IH]; intros Hx; cbn [app].
  - constructor; [intros [] | constructor].
  - constructor.
    + rewrite in_app_iff. intros [H | [H | []]]; [exact (Hy H) |].
      apply Hx. left. symmetry. exact H.
    + apply IH. intros H. apply Hx. right. exact H.
Qed.

(** What the clean-up loop keeps. *)
Lemma clean_questions_spec (questions : list (list N)) :
  List.NoDup (clean_questions questions)
  /\ forall q, In q (clean_questions questions) ->
       q <> []
       /\ exists raw, In raw questions
                      /\ q = strip (strip_chars [34%N; 39%N] raw).
Proof.
  unfold clean_questions.
  enough (H : forall acc,
    (List.NoDup acc
     /\ forall q, In q acc ->
          q <> [] /\ exists raw, In raw questions
                                 /\ q = strip (strip_chars [34%N; 39%N] raw)) ->
    forall todo, (forall raw, In raw todo -> In raw questions) ->
    let out :=
      fold_left
        (fun acc q =>
           let cleaned := strip (strip_chars [34%N; 39%N] q) in
           if truthy cleaned && negb (mem_str cleaned acc)
           then acc ++ [cleaned] else acc) todo acc in
    List.NoDup out
    /\ forall q, In q out ->
         q <> [] /\ exists raw, In raw questions
                                /\ q = strip (strip_chars [34%N; 39%N] raw)).
  { apply (H []); [| auto]. split; [constructor | intros q []]. }
  intros acc Hacc todo. revert acc Hacc.
  induction todo as [| x todo IH]; intros acc Hacc Hsub; cbn [fold_left];
    [exact Hacc |].
  apply IH; [| intros raw Hr; apply Hsub; right; exact Hr].
  destruct Hacc as [Hnd Hall].
  destruct (truthy _) eqn:Ht; cbn [andb]; [| split; assumption].
  destruct (mem_str _ acc) eqn:Hm; cbn [negb]; [split; assumption |].
  split.
  - apply NoDup_snoc; [exact Hnd |]. intros Hin.
    apply mem_str_In in Hin. congruence.
  - intros q. rewrite in_app_iff. intros [Hq | [<- | []]]; [apply Hall, Hq |].
    split.
    + intros E. rewrite E in Ht. discriminate.
    + exists x. split; [apply Hsub; left; reflexivity | reflexivity].
Qed.

Lemma all_strings_Some (items : list value) (qs : list (list N)) :
  all_strings items = Some qs -> items = List.map VStr qs.
Proof.
  revert qs. induction items as [| v items IH]; intros qs; cbn [all_strings].
  - intros [= <-]. reflexivity.
  - destruct v as [| b | lit | t | l | ps]; try discriminate.
    destruct (all_strings items) as [qs' |]; [| discriminate].
    intros [= <-]. cbn [List.map]. rewrite (IH qs' eq_refl). reflexivity.
Qed.

Lemma fallback_questions_spec (s : list N) :
  List.NoDup (fallback_questions s)
  /\ forall q, In q (fallback_questions s) ->
       endswith q (py "?") = true /\ strip q = q.
Proof.
  unfold fallback_questions.
  set (found := match findall numbered_at true 0 s with
                | [] => findall question_at true 0 s
                | _ :: _ => findall numbered_at true 0 s
                end).
  assert (Hfound : forall g, In g found -> exists m, g = m ++ [63%N]).
  { intros g. unfold found.
    destruct (findall numbered_at true 0 s) as [| g0 l] eqn:E.
    - apply (findall_In question_at (fun g => exists m, g = m ++ [63%N])
               question_at_ends).
    - rewrite <- E.
      apply (findall_In numbered_at (fun g => exists m, g = m ++ [63%N])
               numbered_at_ends). }
  destruct (clean_questions_spec found) as [Hnd Hall].
  split; [exact Hnd |].
  intros q Hq. destruct (Hall q Hq) as (_ & raw & Hraw & ->).
  destruct (Hfound raw Hraw) as [m ->].
  destruct (strip_by_last (fun c => mem_char c [34%N; 39%N]) m 63%N eq_refl)
    as [m' E].
  unfold strip_chars. rewrite E.
  split.
  - destruct (strip_by_last isspace m' 63%N eq_refl) as [m'' E'].
    unfold strip. rewrite E'. apply endswith_last. exists m''. reflexivity.
  - apply strip_by_fixed.
Qed.

(** X6.  A list returned by [parse_follow_up_response] is either the
    list of strings that the bracketed part of the answer decodes to,
    as it stands, or the outcome of the regular-expression fall-back,
    in which no question occurs twice and every question is trimmed and
    ends with a question mark. *)
Theorem parse_follow_up_response_shape (llm_response : list N)
    (qs : list (list N)) :
  parse_follow_up_response llm_response = Return qs ->
  (exists json_match,
      search_bracketed llm_response = Some json_match
      /\ json_loads json_match = Return (VList (List.map VStr qs)))
  \/ (qs = fallback_questions llm_response
      /\ List.NoDup qs
      /\ forall q, In q qs -> endswith q (py "?") = true /\ strip q = q).
Proof.
  unfold parse_follow_up_response, parse_follow_up_response_with.
  pose proof (fallback_questions_spec llm_response) as [Hnd Hall].
  assert (Hfb : forall qs', Return (E := parse_exn) (fallback_questions llm_response) = Return qs' ->
    qs' = fallback_questions llm_response /\ List.NoDup qs'
    /\ forall q, In q qs' -> endswith q (py "?") = true /\ strip q = q).
  { intros qs' [= <-]. auto. }
  destruct (search_bracketed llm_response) as [json_match |];
    [| intros H; right; apply Hfb, H].
  destruct (json_loads json_match) as [[| b | lit | t | items | pairs] | []] eqn:L;
    try (intros H; right; apply Hfb, H); try discriminate.
  destruct (all_strings items) as [strings |] eqn:S;
    [| intros H; right; apply Hfb, H].
  intros [= <-]. left. exists json_match. split; [reflexivity |].
  rewrite L, (all_strings_Some items strings S). reflexivity.
Qed.

Lemma search_bracketed_skip (pre rest : list N) :
  forallb (fun c => negb (c =? 91)%N) pre = true ->
  search_bracketed (pre ++ rest) = search_bracketed rest.
Proof.
  induction pre as [| c pre IH]; cbn [app forallb search_bracketed];
    [reflexivity |].
  intros H. apply andb_prop in H as [Hc Hr].
  apply negb_true_iff in Hc. rewrite Hc. apply IH, Hr.
Qed.

Lemma upto_last_absent (c : N) (post : list N) :
  forallb (fun x => negb (x =? c)%N) post = true -> upto_last c post = None.
Proof.
  induction post as [| x post IH]; cbn [forallb upto_last]; [reflexivity |].
  intros H. apply andb_prop in H as [Hx Hr]. apply negb_true_iff in Hx.
  rewrite (IH Hr), Hx. reflexivity.
Qed.

Lemma upto_last_before (c : N) (l post : list N) :
  forallb (fun x => negb (x =? c)%N) post = true ->
  upto_last c (l ++ [c] ++ post) = Some (l ++ [c]).
Proof.
  intros H. induction l as [| x l IH]; cbn [app upto_last].
  - rewrite (upto_last_absent c post H), N.eqb_refl. reflexivity.
  - cbn [app] in IH. rewrite IH. reflexivity.
Qed.

(** X7.  A JSON array of strings wrapped in prose is found and
    decoded by [parse_follow_up_response]: when the text before it has
    no opening bracket and the text after it no closing bracket, the
    result is the list of strings, in order. *)
Theorem json_array_inside_prose (qs : list (list N)) (pre post : list N) :
  forallb (forallb is_scalar) qs = true ->
  forallb (fun c => negb (c =? 91)%N) pre = true ->
  forallb (fun c => negb (c =? 93)%N) post = true ->
  parse_follow_up_response (pre ++ dumps_list qs ++ post) = Return qs.
Proof.
  intros Hs Hpre Hpost.
  unfold parse_follow_up_response, parse_follow_up_response_with.
  rewrite search_bracketed_skip by exact Hpre.
  rewrite dumps_list_shape. cbn [app search_bracketed].
  change (91 =? 91)%N with true. cbv iota.
  rewrite <- app_assoc.
  rewrite (upto_last_before 93%N _ post Hpost).
  rewrite <- dumps_list_shape.
  rewrite (json_loads_dumps_list qs (scalar_texts qs Hs)), all_strings_map.
  reflexivity.
Qed.

End FallbackExtras.

(** ** More on the agents *)

Section PipelineExtras.

Import Pipeline.

Lemma set_follow_up_lookup (state : AgentState) (qs : list (list N))
    (needed : bool) (message : list N) :
  agent_request (set_follow_up state qs needed message) = agent_request state
  /\ agent_response (set_follow_up state qs needed message)
       !! py "follow_up_questions" = Some (VList (List.map VStr qs))
  /\ agent_response (set_follow_up state qs needed message)
       !! py "follow_up_needed" = Some (VBool needed)
  /\ agent_response (set_follow_up state qs needed message)
       !! py "message" = Some (VStr message)
  /\ forall key,
       key <> py "follow_up_questions" -> key <> py "follow_up_needed" ->
       key <> py "message" ->
       agent_response (set_follow_up state qs needed message) !! key
       = agent_response state !! key.
Proof.
  unfold set_follow_up. cbn [agent_request agent_response].
  split; [reflexivity |]. split; [| split; [| split]].
  - rewrite lookup_insert_ne by (vm_compute; discriminate).
    rewrite lookup_insert_ne by (vm_compute; discriminate).
    apply lookup_insert_eq.
  - rewrite lookup_insert_ne by (vm_compute; discriminate).
    apply lookup_insert_eq.
  - apply lookup_insert_eq.
  - intros key H1 H2 H3.
    rewrite !lookup_insert_ne by congruence. reflexivity.
Qed.

(** X8.  [execute_agent] of [followUpAgent.py] always returns a state
    with the same request, in whose [agent_response] the keys
    [follow_up_questions], [follow_up_needed] and [message] hold a list
    of strings, a boolean and a string; every other key keeps the value
    it had. *)
Theorem execute_agent_touches_three_keys (A U M : list N)
    (chat : list N -> result Exception (list N)) (state : AgentState) :
  exists state' qs needed message,
    execute_agent A U M chat state = Return state'
    /\ agent_request state' = agent_request state
    /\ agent_response state' !! py "follow_up_questions"
       = Some (VList (List.map VStr qs))
    /\ agent_response state' !! py "follow_up_needed" = Some (VBool needed)
    /\ agent_response state' !! py "message" = Some (VStr message)
    /\ forall key,
         key <> py "follow_up_questions" -> key <> py "follow_up_needed" ->
         key <> py "message" ->
         agent_response state' !! key = agent_response state !! key.
Proof.
  destruct (execute_agent_shape A U M chat state)
    as (qs & needed & message & E & _).
  exists (set_follow_up state qs needed message), qs, needed, message.
  split; [exact E |]. apply set_follow_up_lookup.
Qed.

End PipelineExtras.

Section StrategyExtras.

Import Strategy.

(** X9.  With a [primary_agent_response] in the state, [process]
    calls the strategy exactly once, on the state, that response and
    [max_questions].  An exception of the strategy leaves [process]
    unhandled; a returned list is stored under [follow_up_questions],
    and every other key, the primary response included, keeps its
    value. *)
Theorem process_adds_follow_up_questions (self : FollowUpAgent)
    (agent_state : gmap (list N) value) (original_response : value) :
  agent_state !! py "primary_agent_response" = Some original_response ->
  let call :=
    {| call_agent_state := agent_state;
       call_original_response := original_response;
       call_max_questions := max_questions self |} in
  (forall e,
      generator_strategy self agent_state original_response (max_questions self)
      = Raise e ->
      process self agent_state = (Raise e, [call]))
  /\ (forall qs,
        generator_strategy self agent_state original_response (max_questions self)
        = Return qs ->
        exists state',
          process self agent_state = (Return state', [call])
          /\ state' !! py "follow_up_questions" = Some (VList (List.map VStr qs))
          /\ state' !! py "primary_agent_response" = Some original_response
          /\ forall key, key <> py "follow_up_questions" ->
               state' !! key = agent_state !! key).
Proof.
  intros H call. unfold process. rewrite H. split.
  - intros e He. rewrite He. reflexivity.
  - intros qs Hq. rewrite Hq. eexists. split; [reflexivity |].
    split; [apply lookup_insert_eq | split].
    + rewrite lookup_insert_ne by (vm_compute; discriminate). exact H.
    + intros key Hk. apply lookup_insert_ne. congruence.
Qed.

Lemma filter_filter_same {X : Type} (keep : X -> bool) (l : list X) :
  List.filter keep (List.filter keep l) = List.filter keep l.
Proof.
  induction l as [| x l IH]; cbn [List.filter]; [reflexivity |].
  destruct (keep x) eqn:E; [| exact IH].
  cbn [List.filter]. rewrite E, IH. reflexivity.
Qed.

Lemma filter_length_le {X : Type} (keep : X -> bool) (l : list X) :
  (length (List.filter keep l) <= length l)%nat.
Proof.
  induction l as [| x l IH]; cbn [List.filter length]; [lia |].
  destruct (keep x); cbn [length]; lia.
Qed.

Lemma filter_duplicates_as_filter (new_questions : list (list N))
    (history : list history_entry) :
  _filter_duplicate_questions new_questions history
  = List.filter
      (fun q => negb (asked_before (previous_questions history) q))
      new_questions.
Proof.
  unfold _filter_duplicate_questions.
  apply (fold_left_keep
           (fun q => negb (asked_before (previous_questions history) q))).
Qed.

(** X10.  Filtering twice against the same history gives what
    filtering once gives; the filter never adds a question, returns its
    input against an empty history and an empty list for no
    candidate. *)
Theorem filter_duplicates_idempotent (new_questions : list (list N))
    (history : list history_entry) :
  _filter_duplicate_questions
    (_filter_duplicate_questions new_questions history) history
  = _filter_duplicate_questions new_questions history
  /\ len (_filter_duplicate_questions new_questions history)
     <= len new_questions
  /\ _filter_duplicate_questions new_questions [] = new_questions
  /\ _filter_duplicate_questions [] history = [].
Proof.
  rewrite !filter_duplicates_as_filter. split; [apply filter_filter_same |].
  split; [| split].
  - unfold len.
    pose proof (filter_length_le
                  (fun q => negb (asked_before (previous_questions history) q))
                  new_questions).
    lia.
  - cbn. induction new_questions as [| q l IH]; cbn [List.filter];
      [reflexivity |].
    cbn in IH. rewrite IH. reflexivity.
  - reflexivity.
Qed.

End StrategyExtras.

Section AgentExtras.

Import Agent.

Lemma In_take {X : Type} (n : nat) (l : list X) (x : X) :
  In x (take n l) -> In x l.
Proof.
  revert l. induction n as [| n IH]; intros [| y l]; cbn [take];
    try contradiction.
  intros [<- | H]; [left; reflexivity | right; apply IH, H].
Qed.

Lemma question_lines_spec (response : list N) :
  len (question_lines response) <= 3
  /\ forall q, In q (question_lines response) ->
       endswith q (py "?") = true /\ strip q = q.
Proof.
  unfold question_lines. split.
  - unfold len. rewrite length_take. lia.
  - intros q Hq. apply In_take in Hq. apply in_map_iff in Hq as (l & <- & Hl).
    apply filter_In in Hl as [_ Hl]. apply andb_prop in Hl as [_ He].
    split; [exact He | apply strip_by_fixed].
Qed.

Lemma validated_questions (questions : list (list N)) :
  _validate_follow_up_questions questions = true ->
  len questions <= 3
  /\ forall q, In q questions -> endswith q (py "?") = true.
Proof.
  unfold _validate_follow_up_questions.
  destruct questions as [| q0 rest] eqn:E; [discriminate |].
  rewrite <- E. rewrite forallb_forall. intros H. split.
  - assert (H0 : In q0 questions) by (rewrite E; left; reflexivity).
    apply H, check_all_criteria in H0. tauto.
  - intros q Hq. apply H, check_all_criteria in Hq. tauto.
Qed.

Variable dumps_context : context -> result Exception (list N).
Variable generate_response : list N -> result Exception (list N).

Lemma llm_generate_shape (ctx : context) :
  exists r,
    _llm_generate_follow_up_questions dumps_context generate_response ctx
    = Return r
    /\ len (follow_up_questions r) <= 3
    /\ (forall q, In q (follow_up_questions r) ->
          endswith q (py "?") = true /\ strip q = q)
    /\ ((confidence_score r == 0.7)%Q \/
        (follow_up_questions r = [] /\ (confidence_score r == 0)%Q)).
Proof.
  unfold _llm_generate_follow_up_questions.
  assert (Hfail : forall e,
    let r := {| follow_up_questions := [];
                reasoning := py "LLM generation failed: " ++ text e;
                confidence_score := 0.0 |} in
    len (follow_up_questions r) <= 3
    /\ (forall q, In q (follow_up_questions r) ->
          endswith q (py "?") = true /\ strip q = q)
    /\ ((confidence_score r == 0.7)%Q \/
        (follow_up_questions r = [] /\ (confidence_score r == 0)%Q))).
  { intros e r. cbn. split; [unfold len; cbn; lia |].
    split; [intros q [] |]. right. split; reflexivity. }
  destruct (dumps_context ctx) as [j | e]; [| eexists; split; [reflexivity | apply Hfail]].
  destruct (generate_response _) as [response | e];
    [| eexists; split; [reflexivity | apply Hfail]].
  eexists. split; [reflexivity |]. cbn [follow_up_questions confidence_score].
  destruct (question_lines_spec response) as [H1 H2].
  split; [exact H1 | split; [exact H2 |]]. left. reflexivity.
Qed.

Lemma first_conversation_result (ctx : context) :
  default [] (previous_messages ctx) = [] ->
  _generate_follow_up_questions dumps_context generate_response ctx
  = Return
      {| follow_up_questions :=
           [py "Could you provide more context about your current situation?"];
         reasoning := py "Initial conversation requires more context";
         confidence_score := 0.5 |}.
Proof.
  unfold _generate_follow_up_questions, _generate_follow_up_questions_with,
    generate_follow_up_questions.
  intros H. rewrite H. reflexivity.
Qed.

(** X11.  [_llm_generate_follow_up_questions] always returns a result,
    with at most three questions, each trimmed and ending with a
    question mark.  When the prompt is built and the backend answers,
    the questions are the trimmed lines of the answer that end with a
    question mark, the first three of them, with the reasoning of a
    successful generation and the confidence 0.7; when building the
    prompt or calling the backend raises, the list is empty, the
    reasoning reports the error and the confidence is 0.0. *)
Theorem llm_fallback_result_shape (ctx : context) :
  exists r,
    _llm_generate_follow_up_questions dumps_context generate_response ctx
    = Return r
    /\ len (follow_up_questions r) <= 3
    /\ (forall q, In q (follow_up_questions r) ->
          endswith q (py "?") = true /\ strip q = q)
    /\ (forall j response,
          dumps_context ctx = Return j ->
          generate_response (llm_prompt j) = Return response ->
          r = {| follow_up_questions :=
                   take 3
                     (List.map strip
                        (List.filter
                           (fun line => endswith (strip line) (py "?"))
                           (split 10%N response)));
                 reasoning := py "LLM-generated follow-up questions";
                 confidence_score := 0.7 |})
    /\ (forall e,
          dumps_context ctx = Raise e
          \/ (exists j, dumps_context ctx = Return j
                        /\ generate_response (llm_prompt j) = Raise e) ->
          r = {| follow_up_questions := [];
                 reasoning := py "LLM generation failed: " ++ text e;
                 confidence_score := 0.0 |}).
Proof.
  destruct (llm_generate_shape ctx) as (r & Hr & Hlen & Hq & _).
  exists r. split; [exact Hr | split; [exact Hlen | split; [exact Hq |]]].
  unfold _llm_generate_follow_up_questions in Hr.
  split.
  - intros j response Hd Hg. rewrite Hd, Hg in Hr.
    injection Hr as <-. unfold question_lines. f_equal. f_equal. f_equal.
    apply filter_ext. intros line.
    destruct (endswith (strip line) (py "?")) eqn:He;
      [| apply andb_false_r].
    rewrite andb_true_r.
    destruct (strip line) as [| c l]; [discriminate He | reflexivity].
  - intros e [Hd | (j & Hd & Hg)].
    + rewrite Hd in Hr. injection Hr as <-. reflexivity.
    + rewrite Hd, Hg in Hr. injection Hr as <-. reflexivity.
Qed.

(** X12.  Whatever the first generator and the backend do,
    [_generate_follow_up_questions] returns a result with at most three
    questions, each ending with a question mark. *)
Theorem generation_result_shape
    (generate : context -> result Exception follow_up_result) (ctx : context) :
  exists r,
    _generate_follow_up_questions_with dumps_context generate_response
      generate ctx = Return r
    /\ len (follow_up_questions r) <= 3
    /\ forall q, In q (follow_up_questions r) -> endswith q (py "?") = true.
Proof.
  unfold _generate_follow_up_questions_with.
  destruct (generate ctx) as [r | e].
  - destruct (_validate_follow_up_questions (follow_up_questions r)) eqn:V;
      cbn [negb].
    + exists r. split; [reflexivity |]. apply validated_questions, V.
    + destruct (llm_generate_shape ctx) as (r' & -> & H1 & H2 & _).
      exists r'. split; [reflexivity |]. split; [exact H1 |].
      intros q Hq. apply (H2 q Hq).
  - eexists. split; [reflexivity |]. cbn. split; [unfold len; cbn; lia |].
    intros q [].
Qed.

(** X13.  With no previous message in the context,
    [_generate_follow_up_questions] returns the fixed opening question
    with confidence 0.5 and the backend has no part in the result; with
    previous messages the result is the one of
    [_llm_generate_follow_up_questions]. *)
Theorem generation_follows_previous_messages (ctx : context) :
  (default [] (previous_messages ctx) = [] ->
   _generate_follow_up_questions dumps_context generate_response ctx
   = Return
       {| follow_up_questions :=
            [py "Could you provide more context about your current situation?"];
          reasoning := py "Initial conversation requires more context";
          confidence_score := 0.5 |})
  /\ (default [] (previous_messages ctx) <> [] ->
      _generate_follow_up_questions dumps_context generate_response ctx
      = _llm_generate_follow_up_questions dumps_context generate_response ctx).
Proof.
  split; [apply first_conversation_result |].
  unfold _generate_follow_up_questions, _generate_follow_up_questions_with,
    generate_follow_up_questions.
  intros H.
  destruct (default [] (previous_messages ctx)) as [| m l]; [contradiction |].
  cbn [follow_up_questions _validate_follow_up_questions negb].
  destruct (llm_generate_shape ctx) as (r & -> & _). reflexivity.
Qed.

End AgentExtras.

Section FlowExtras.

Import Flow.

Variable dumps_context : Agent.context -> result Exception (list N).
Variable generate_response : list N -> result Exception (list N).

(** X14.  [execute_agent] of [follow_Up_Agent.py] stores the same
    question, reasoning and confidence 0.5 for every state, prompt
    serializer and backend, and never sets [error]: the context it
    prepares has no [previous_messages] key, so the backend fall-back
    is never reached. *)
Theorem execute_agent_asks_the_default_question (state : AgentState) :
  execute_agent dumps_context generate_response state
  = {| query := query state;
       messages := messages state;
       completed_agents := completed_agents state;
       agent_response := agent_response state;
       attributes := attributes state;
       follow_up_questions :=
         Some [py "Could you provide more context about your current situation?"];
       follow_up_reasoning :=
         Some (py "Initial conversation requires more context");
       follow_up_confidence := Some 0.5%Q;
       error := error state |}.
Proof.
  unfold execute_agent.
  rewrite (first_conversation_result dumps_context generate_response
             (as_context (_prepare_follow_up_context generate_response state)))
    by reflexivity.
  reflexivity.
Qed.

Lemma extract_fold (attrs : gmap (list N) value) (keys : list (list N))
    (acc : gmap (list N) value) (key : list N) :
  fold_left
    (fun additional_context k =>
       match attrs !! k with
       | Some v => <[k := v]> additional_context
       | None => additional_context
       end) keys acc !! key
  = if Parser.mem_str key keys then
      match attrs !! key with Some v => Some v | None => acc !! key end
    else acc !! key.
Proof.
  revert acc. induction keys as [| k keys IH]; intros acc; cbn [fold_left].
  - reflexivity.
  - rewrite IH. unfold Parser.mem_str. cbn [existsb].
    fold (Parser.mem_str key keys).
    destruct (decide (key = k)) as [-> | Hne].
    + rewrite (proj2 (str_eqb_eq k k) eq_refl). cbn [orb].
      destruct (attrs !! k) as [v |] eqn:E.
      * rewrite lookup_insert_eq. destruct (Parser.mem_str k keys); reflexivity.
      * destruct (Parser.mem_str k keys); reflexivity.
    + assert (Hf : str_eqb key k = false).
      { destruct (str_eqb key k) eqn:E; [| reflexivity].
        apply str_eqb_eq in E. contradiction. }
      rewrite Hf. cbn [orb].
      destruct (attrs !! k) as [v |] eqn:E; [| reflexivity].
      rewrite lookup_insert_ne by congruence. reflexivity.
Qed.

(** X15.  [_extract_additional_context] copies the attributes named in
    its list of four keys that the state has, with their values, and
    nothing else: an absent attribute is left out, another attribute is
    never copied. *)
Theorem additional_context_is_the_allow_list (state : AgentState)
    (key : list N) :
  _extract_additional_context state !! key
  = if Parser.mem_str key contextual_keys then attributes state !! key
    else None.
Proof.
  unfold _extract_additional_context. rewrite extract_fold.
  destruct (Parser.mem_str key contextual_keys); [| apply lookup_empty].
  destruct (attributes state !! key); [reflexivity | apply lookup_empty].
Qed.

End FlowExtras.

Section GeneratorExtras.

Import Generators Strategy.

Lemma take_upto_sublist {X : Type} (l : list X) (n : Z) :
  sublist (take_upto l n) l.
Proof. unfold take_upto. destruct (n <? 0); apply sublist_take. Qed.

Lemma take_upto_len {X : Type} (l : list X) (n : Z) :
  0 <= n -> len (take_upto l n) <= n.
Proof.
  intros H. unfold take_upto, len.
  destruct (Z.ltb_spec n 0); [lia |]. rewrite length_take. lia.
Qed.

Lemma take_upto_In {X : Type} (l : list X) (n : Z) (x : X) :
  In x (take_upto l n) -> In x l.
Proof. unfold take_upto. destruct (n <? 0); apply In_take. Qed.

Lemma NoDup_take {X : Type} (n : nat) (l : list X) :
  List.NoDup l -> List.NoDup (take n l).
Proof.
  intros H. revert n. induction H as [| x l Hx Hl IH]; intros [| n]; cbn [take];
    try constructor.
  - intros Hin. apply Hx. eapply In_take, Hin.
  - apply IH.
Qed.

Lemma take_upto_NoDup {X : Type} (l : list X) (n : Z) :
  List.NoDup l -> List.NoDup (take_upto l n).
Proof. unfold take_upto. destruct (n <? 0); apply NoDup_take. Qed.

Section LLMBasedResult.

Variable prompt_of : agent_state -> value -> Z -> result Exception (list N).
Variable generate_response : list N -> result Exception (list N).

(** X16.  A list returned by
    [LLMBasedFollowUpGenerator.generate_questions] is made of questions
    parsed from the answer of the backend, in their order; it has at
    most [max_questions] entries when that bound is not negative, and
    none of them equals, letter case aside, a question of the
    conversation history. *)
Theorem llm_generator_result (state : agent_state) (original_response : value)
    (max_questions : Z) (qs : list (list N)) :
  llm_generate_questions prompt_of generate_response state original_response
    max_questions = Return qs ->
  exists prompt llm_response parsed,
    prompt_of state original_response max_questions = Return prompt
    /\ generate_response prompt = Return llm_response
    /\ Parser.parse_follow_up_response llm_response = Return parsed
    /\ sublist qs parsed
    /\ (0 <= max_questions -> len qs <= max_questions)
    /\ forall q p,
         In q qs ->
         In p (previous_questions (default [] (conversation_history state))) ->
         lower p <> lower q.
Proof.
  unfold llm_generate_questions.
  destruct (prompt_of state original_response max_questions)
    as [prompt | e] eqn:Hp; [| discriminate].
  destruct (generate_response prompt) as [llm_response | e] eqn:Hg;
    [| discriminate].
  destruct (Parser.parse_follow_up_response llm_response)
    as [parsed | e] eqn:Hr; [| discriminate].
  intros [= <-]. exists prompt, llm_response, parsed.
  split; [reflexivity | split; [exact Hg | split; [exact Hr |]]].
  rewrite filter_duplicates_as_filter. split; [| split].
  - etransitivity; [apply take_upto_sublist | apply filter_sublist].
  - apply take_upto_len.
  - intros q p Hq Hprev E. apply take_upto_In, filter_In in Hq as [_ Hq].
    apply negb_true_iff in Hq.
    assert (Ha : asked_before
                   (previous_questions (default [] (conversation_history state))) q
                 = true) by (apply asked_before_iff; eauto).
    congruence.
Qed.

End LLMBasedResult.

Lemma unique_spec (questions : list (list N)) :
  List.NoDup (unique questions)
  /\ forall q, In q (unique questions) <-> In q questions.
Proof.
  unfold unique.
  enough (H : forall todo acc,
    List.NoDup acc ->
    let out :=
      fold_left
        (fun unique_questions q =>
           if Parser.mem_str q unique_questions then unique_questions
           else unique_questions ++ [q]) todo acc in
    List.NoDup out /\ forall q, In q out <-> In q acc \/ In q todo).
  { destruct (H questions [] (List.NoDup_nil _)) as [H1 H2].
    split; [exact H1 |]. intros q. rewrite H2. cbn [In]. tauto. }
  induction todo as [| x todo IH]; intros acc Hacc; cbn [fold_left].
  - split; [exact Hacc |]. intros q. cbn. tauto.
  - destruct (Parser.mem_str x acc) eqn:E.
    + destruct (IH acc Hacc) as [H1 H2]. split; [exact H1 |].
      intros q. rewrite H2. apply mem_str_In in E. cbn [In].
      split; [tauto |]. intros [H | [Hq | H]]; [tauto | subst q; tauto | tauto].
    + assert (Hx : ~ In x acc).
      { intros Hin. apply mem_str_In in Hin. congruence. }
      destruct (IH (acc ++ [x]) (NoDup_snoc acc x Hacc Hx)) as [H1 H2].
      split; [exact H1 |]. intros q. rewrite H2, in_app_iff. cbn [In]. tauto.
Qed.

Lemma lookup_In (keyword : list N) (m : mapping) (questions : list (list N)) :
  lookup keyword m = Some questions -> In (keyword, questions) m.
Proof.
  induction m as [| [k qs] m IH]; cbn [lookup]; [discriminate |].
  destruct (str_eqb k keyword) eqn:E.
  - apply str_eqb_eq in E. subst k. intros [= <-]. left. reflexivity.
  - intros H. right. apply IH, H.
Qed.

Lemma matched_questions_In (m : mapping) (agent_type response_text q : list N) :
  In q (matched_questions m agent_type response_text) ->
  exists keyword questions, In (keyword, questions) m /\ In q questions.
Proof.
  unfold matched_questions.
  set (keyed := default [] (lookup agent_type m)).
  set (found := flat_map _ m).
  assert (Hlookup : forall k, In q (default [] (lookup k m)) ->
            exists keyword questions, In (keyword, questions) m /\ In q questions).
  { intros k. destruct (lookup k m) as [qs |] eqn:E; cbn [default];
      [| contradiction].
    intros Hq. exists k, qs. split; [apply lookup_In, E | exact Hq]. }
  assert (Hall : In q (keyed ++ found) ->
            exists keyword questions, In (keyword, questions) m /\ In q questions).
  { rewrite in_app_iff. intros [Hq | Hq]; [apply (Hlookup agent_type), Hq |].
    unfold found in Hq. apply in_flat_map in Hq as ([k qs] & Hin & Hq).
    destruct (_ && _); [| contradiction]. exists k, qs. split; assumption. }
  destruct (keyed ++ found) as [| q0 rest]; [apply Hlookup | exact Hall].
Qed.

Section KeywordBasedResult.

Variable dumps : value -> result Exception (list N).

(** X17.  A list returned by
    [KeywordBasedFollowUpGenerator.generate_questions] has no repeated
    question, at most [max_questions] entries when that bound is not
    negative, and only questions of the keyword mapping. *)
Theorem keyword_generator_result (m : mapping) (state : agent_state)
    (original_response : value) (max_questions : Z) (qs : list (list N)) :
  keyword_generate_questions dumps m state original_response max_questions
  = Return qs ->
  List.NoDup qs
  /\ (0 <= max_questions -> len qs <= max_questions)
  /\ forall q, In q qs ->
       exists keyword questions, In (keyword, questions) m /\ In q questions.
Proof.
  unfold keyword_generate_questions.
  destruct (dumps original_response) as [dumped | e]; [| discriminate].
  intros [= <-].
  set (matched := matched_questions m _ _).
  destruct (unique_spec matched) as [Hnd Hin].
  split; [apply take_upto_NoDup, Hnd | split; [apply take_upto_len |]].
  intros q Hq. apply take_upto_In, Hin in Hq.
  eapply matched_questions_In, Hq.
Qed.

Lemma no_keyword_found (m : mapping) (response_text : list N) :
  (forall keyword questions, In (keyword, questions) m ->
     keyword <> py "default" -> contains keyword response_text = false) ->
  flat_map
    (fun '(keyword, keyword_questions) =>
       if contains keyword response_text
          && negb (str_eqb keyword (py "default"))
       then keyword_questions else [])
    m = [].
Proof.
  induction m as [| [k qs] m IH]; intros H; cbn [flat_map]; [reflexivity |].
  rewrite IH
    by (intros k' qs' Hin Hne; apply (H k' qs'); [right; exact Hin | exact Hne]).
  rewrite app_nil_r.
  destruct (str_eqb k (py "default")) eqn:E.
  - rewrite andb_false_r. reflexivity.
  - rewrite (H k qs); [reflexivity | left; reflexivity |].
    intros ->. rewrite (proj2 (str_eqb_eq _ _) eq_refl) in E. discriminate.
Qed.

(** X18.  When no keyword other than [default] occurs in the
    lower-cased serialized response, the keyword generator returns the
    questions of the lower-cased agent type, or those of [default] when
    the type has none, without repetition and cut at
    [max_questions]. *)
Theorem keyword_generator_without_keyword (m : mapping) (state : agent_state)
    (original_response : value) (max_questions : Z) (dumped : list N) :
  dumps original_response = Return dumped ->
  (forall keyword questions, In (keyword, questions) m ->
     keyword <> py "default" -> contains keyword (lower dumped) = false) ->
  keyword_generate_questions dumps m state original_response max_questions
  = Return
      (take_upto
         (unique
            match default []
                    (lookup (lower (default [] (current_agent_type state))) m)
            with
            | [] => default [] (lookup (py "default") m)
            | questions => questions
            end)
         max_questions).
Proof.
  intros Hd Hno. unfold keyword_generate_questions, matched_questions.
  rewrite Hd, (no_keyword_found m (lower dumped) Hno), app_nil_r.
  destruct (default [] (lookup _ m)); reflexivity.
Qed.

End KeywordBasedResult.

End GeneratorExtras.

Section GapsExtras.

Import Generators Gaps.

Lemma contains_char (c : N) (s : list N) :
  contains [c] s = true <-> In c s.
Proof.
  induction s as [| x s IH]; cbn [contains startswith In].
  - split; [discriminate | contradiction].
  - rewrite orb_true_iff, andb_true_r, N.eqb_eq, IH.
    split; (intros [H | H]; [left; symmetry; exact H | right; exact H]).
Qed.

Lemma lstrip_by_keeps (p : N -> bool) (c : N) (s : list N) :
  p c = false -> In c s -> In c (lstrip_by p s).
Proof.
  intros Hc. induction s as [| x s IH]; cbn [lstrip_by In]; [contradiction |].
  intros H. destruct (p x) eqn:E; [| exact H].
  destruct H as [-> | H]; [congruence | exact (IH H)].
Qed.

Lemma strip_by_keeps (p : N -> bool) (c : N) (s : list N) :
  p c = false -> In c s -> In c (strip_by p s).
Proof.
  intros Hc H. unfold strip_by, rstrip_by.
  rewrite <- in_rev. apply lstrip_by_keeps; [exact Hc |].
  rewrite <- in_rev. apply lstrip_by_keeps; assumption.
Qed.

Lemma mentioned_filter (first second third : list N)
    (categories : list (list N)) (response_content : list N) :
  mentioned first second third categories response_content
  = List.filter
      (fun category =>
         contains (first ++ category) (lower response_content)
         || contains (second ++ category) (lower response_content)
         || contains (third ++ category) (lower response_content))
      categories.
Proof.
  unfold mentioned.
  apply (fold_left_keep
           (fun category =>
              contains (first ++ category) (lower response_content)
              || contains (second ++ category) (lower response_content)
              || contains (third ++ category) (lower response_content))
           categories []).
Qed.

(** X19.  In the result of [_parse_follow_up_questions] every
    question is a trimmed line that holds a question mark, a text
    without question mark gives no question, and the missing
    information and the clarification areas are drawn from their fixed
    lists of categories, in the order of those lists. *)
Theorem parsed_follow_up_shape (response_content : list N) :
  let parsed := _parse_follow_up_questions response_content in
  (forall q, In q (questions parsed) -> In 63%N q /\ strip q = q)
  /\ (~ In 63%N response_content -> questions parsed = [])
  /\ sublist (missing_info parsed) information_categories
  /\ sublist (clarification_needed parsed) clarification_categories.
Proof.
  cbv zeta. unfold _parse_follow_up_questions.
  cbn [questions missing_info clarification_needed].
  split; [| split; [| split]].
  - intros q Hq. apply in_map_iff in Hq as (line & <- & Hl).
    apply filter_In in Hl as [_ Hl]. apply (contains_char 63%N) in Hl.
    split; [apply strip_by_keeps; [reflexivity | exact Hl] | apply strip_by_fixed].
  - intros Hno.
    enough (H : forall cur s, ~ In 63%N cur -> ~ In 63%N s ->
              List.filter (fun line => contains (py "?") line)
                (split_aux 10%N cur s) = []).
    { unfold split. rewrite H; [reflexivity | intros [] |].
      intros Hin. apply Hno.
      destruct (lstrip_by_suffix isspace response_content) as (d1 & E1 & _).
      unfold strip, strip_by, rstrip_by in Hin.
      rewrite <- in_rev in Hin.
      destruct (lstrip_by_suffix isspace (rev (lstrip_by isspace response_content)))
        as (d2 & E2 & _).
      assert (H2 : In 63%N (rev (lstrip_by isspace response_content))).
      { rewrite E2. apply in_or_app. right. exact Hin. }
      rewrite <- in_rev in H2.
      rewrite E1. apply in_or_app. right. exact H2. }
    intros cur s. revert cur. induction s as [| c s IH]; intros cur Hc Hs;
      cbn [split_aux List.filter].
    + assert (Hf : contains (py "?") (rev cur) = false).
      { destruct (contains (py "?") (rev cur)) eqn:E; [| reflexivity].
        apply (contains_char 63%N) in E. rewrite <- in_rev in E.
        contradiction. }
      rewrite Hf. reflexivity.
    + destruct (c =? 10)%N.
      * cbn [List.filter].
        assert (Hf : contains (py "?") (rev cur) = false).
        { destruct (contains (py "?") (rev cur)) eqn:E; [| reflexivity].
          apply (contains_char 63%N) in E. rewrite <- in_rev in E.
          contradiction. }
        rewrite Hf. apply IH; [intros [] | intros H; apply Hs; right; exact H].
      * apply IH.
        -- intros [E | H]; [apply Hs; left; exact E | exact (Hc H)].
        -- intros H. apply Hs. right. exact H.
  - unfold _identify_missing_information. rewrite mentioned_filter.
    apply filter_sublist.
  - unfold _identify_clarification_needed. rewrite mentioned_filter.
    apply filter_sublist.
Qed.

End GapsExtras.

(** ** Instances of the further properties *)

Lemma parsed_questions_are_not_blank_witness :
  In (py "What is your goal?")
    (Parser.questions (Parser.parse_with json_loads (py "- What is your goal?")))
  /\ truthy (strip (py "What is your goal?")) = true.
Proof.
  assert (H : In (py "What is your goal?")
                (Parser.questions
                   (Parser.parse_with json_loads (py "- What is your goal?"))))
    by (vm_compute; left; reflexivity).
  split; [exact H |].
  exact (parsed_questions_are_not_blank json_loads _ _ H).
Defined.

Lemma line_fallback_questions_witness :
  let response := py "- What is your goal?" ++ nl ++ py "- nothing else" in
  startswith (lower (strip response)) (py "no follow-up needed") = false
  /\ json_loads (strip response) = Raise JSONDecodeError
  /\ Parser.questions (Parser.parse_with json_loads response)
     = [py "What is your goal?"].
Proof.
  intros response.
  assert (H1 : startswith (lower (strip response)) (py "no follow-up needed")
               = false) by (vm_compute; reflexivity).
  assert (H2 : json_loads (strip response) = Raise JSONDecodeError)
    by (vm_compute; reflexivity).
  split; [exact H1 | split; [exact H2 |]].
  destruct (line_fallback_questions json_loads response [] JSONDecodeError H1 H2)
    as [E _].
  rewrite E. vm_compute. reflexivity.
Defined.

Lemma parse_follow_up_response_shape_witness :
  let llm_response := py "1. What is it?" ++ nl ++ py "2. Why so?" in
  let qs := [py "What is it?"; py "Why so?"] in
  Parser.parse_follow_up_response llm_response = Return qs
  /\ List.NoDup qs.
Proof.
  intros llm_response qs.
  assert (H : Parser.parse_follow_up_response llm_response = Return qs)
    by (vm_compute; reflexivity).
  split; [exact H |].
  destruct (parse_follow_up_response_shape llm_response qs H)
    as [(json_match & Hs & _) | (_ & Hnd & _)].
  - vm_compute in Hs. discriminate Hs.
  - exact Hnd.
Defined.

Lemma json_array_inside_prose_witness :
  let qs := [py "Question 1?"; py "Question 2?"] in
  let pre := py "Here are some follow-up questions: " in
  let post := py " Let me know." in
  forallb (forallb is_scalar) qs = true
  /\ forallb (fun c => negb (c =? 91)%N) pre = true
  /\ forallb (fun c => negb (c =? 93)%N) post = true
  /\ Parser.parse_follow_up_response (pre ++ dumps_list qs ++ post) = Return qs.
Proof.
  intros qs pre post.
  assert (H1 : forallb (forallb is_scalar) qs = true) by (vm_compute; reflexivity).
  assert (H2 : forallb (fun c => negb (c =? 91)%N) pre = true)
    by (vm_compute; reflexivity).
  assert (H3 : forallb (fun c => negb (c =? 93)%N) post = true)
    by (vm_compute; reflexivity).
  split; [exact H1 | split; [exact H2 | split; [exact H3 |]]].
  exact (json_array_inside_prose qs pre post H1 H2 H3).
Defined.

Lemma process_adds_follow_up_questions_witness :
  let self :=
    {| Strategy.generator_strategy :=
         fun _ _ _ => Return [py "Follow-up question 1?"; py "Follow-up question 2?"];
       Strategy.max_questions := 2 |} in
  let response := VDict [(py "message", VStr (py "Your portfolio is up 5% this year."))] in
  let agent_state : gmap (list N) value :=
    {[ py "primary_agent_response" := response ]} in
  agent_state !! py "primary_agent_response" = Some response
  /\ exists state',
       fst (Strategy.process self agent_state) = Return state'
       /\ state' !! py "follow_up_questions"
          = Some (VList [VStr (py "Follow-up question 1?");
                         VStr (py "Follow-up question 2?")]).
Proof.
  intros self response agent_state.
  assert (H : agent_state !! py "primary_agent_response" = Some response)
    by (vm_compute; reflexivity).
  split; [exact H |].
  destruct (process_adds_follow_up_questions self agent_state response H)
    as [_ Hret].
  destruct (Hret [py "Follow-up question 1?"; py "Follow-up question 2?"] eq_refl)
    as (state' & E & Hq & _).
  exists state'. rewrite E. split; [reflexivity | exact Hq].
Defined.

Lemma generation_follows_previous_messages_witness :
  let ctx := {| Agent.previous_messages := None;
                Agent.current_intent := None |} in
  default [] (Agent.previous_messages ctx) = []
  /\ Agent._generate_follow_up_questions
       (fun _ => Raise {| text := py "not serializable" |})
       (fun _ => Raise {| text := py "timed out" |}) ctx
     = Return
         {| Agent.follow_up_questions :=
              [py "Could you provide more context about your current situation?"];
            Agent.reasoning := py "Initial conversation requires more context";
            Agent.confidence_score := 0.5 |}.
Proof.
  intros ctx.
  assert (H : default [] (Agent.previous_messages ctx) = []) by reflexivity.
  split; [exact H |].
  exact (proj1 (generation_follows_previous_messages
                  (fun _ => Raise {| text := py "not serializable" |})
                  (fun _ => Raise {| text := py "timed out" |}) ctx) H).
Defined.

Lemma llm_generator_result_witness :
  let state :=
    {| Generators.user_query := Some (py "How is my portfolio performing?");
       Generators.current_agent_type := Some (py "portfolio");
       Generators.conversation_history :=
         Some [{| Strategy.follow_up_questions := Some [py "Previous question?"] |}];
       Generators.user_profile := None;
       Generators.portfolio_data := None |} in
  let prompt_of :=
    fun (_ : Generators.agent_state) (_ : value) (_ : Z) =>
      Return (E := Exception) (py "prompt") in
  let generate_response :=
    fun _ : list N =>
      Return (E := Exception)
        (dumps_list [py "PREVIOUS question?"; py "New question?";
                     py "Another new question?"]) in
  let qs := [py "New question?"; py "Another new question?"] in
  Generators.llm_generate_questions prompt_of generate_response state VNone 3
  = Return qs
  /\ len qs <= 3.
Proof.
  intros state prompt_of generate_response qs.
  assert (H : Generators.llm_generate_questions prompt_of generate_response
                state VNone 3 = Return qs) by (vm_compute; reflexivity).
  split; [exact H |].
  destruct (llm_generator_result prompt_of generate_response state VNone 3 qs H)
    as (prompt & llm_response & parsed & _ & _ & _ & _ & Hlen & _).
  apply Hlen. discriminate.
Defined.

Lemma keyword_generator_result_witness :
  let state :=
    {| Generators.user_query := None;
       Generators.current_agent_type := Some (py "Portfolio");
       Generators.conversation_history := None;
       Generators.user_profile := None;
       Generators.portfolio_data := None |} in
  let dumps := fun _ : value => Return (E := Exception) (py "{}") in
  let qs := [py "Would you like to see your portfolio performance over time?";
             py "Are you interested in rebalancing your portfolio?"] in
  Generators.keyword_generate_questions dumps Generators.default_mapping
    state (VDict []) 2 = Return qs
  /\ List.NoDup qs.
Proof.
  intros state dumps qs.
  assert (H : Generators.keyword_generate_questions dumps
                Generators.default_mapping state (VDict []) 2 = Return qs)
    by (vm_compute; reflexivity).
  split; [exact H |].
  exact (proj1 (keyword_generator_result dumps Generators.default_mapping
                  state (VDict []) 2 qs H)).
Defined.

Lemma keyword_generator_without_keyword_witness :
  let state :=
    {| Generators.user_query := None;
       Generators.current_agent_type := Some (py "advice");
       Generators.conversation_history := None;
       Generators.user_profile := None;
       Generators.portfolio_data := None |} in
  let dumps := fun _ : value => Return (E := Exception) (py "{}") in
  Generators.keyword_generate_questions dumps Generators.default_mapping
    state (VDict []) 3
  = Return [py "Would you like to learn more about this topic?";
            py "Do you have any specific questions about your investments?";
            py "Would you like to explore other investment opportunities?"].
Proof.
  intros state dumps.
  rewrite (keyword_generator_without_keyword dumps Generators.default_mapping
             state (VDict []) 3 (py "{}") eq_refl).
  - vm_compute. reflexivity.
  - intros keyword questions Hin Hne.
    simpl in Hin.
    destruct Hin as [E | [E | [E | [E | []]]]];
      injection E as <- _; vm_compute; reflexivity.
Defined.

(** ** Text outside ASCII *)

(** Letter case beyond ASCII: accented capitals, the Kelvin sign, the
    dotted capital I, and the capital sigma at the end of a word and
    alone. *)
Example lower_beyond_ascii :
  lower [201; 84; 201]%N = [233; 116; 233]%N
  /\ lower [8490]%N = py "k"
  /\ lower [304]%N = [105; 775]%N
  /\ lower [927; 916; 927; 931]%N = [959; 948; 959; 962]%N
  /\ lower [931]%N = [963]%N.
Proof. vm_compute. repeat split. Qed.

(** A candidate in accented capitals is dropped against the same
    question in small letters. *)
Example accented_duplicate_is_dropped :
  let asked := [233; 116; 233]%N ++ py " prochain?" in
  let candidate := [201; 84; 201]%N ++ py " PROCHAIN?" in
  Strategy._filter_duplicate_questions [candidate; py "Why so?"]
    [{| Strategy.follow_up_questions := Some [asked] |}]
  = [py "Why so?"].
Proof. vm_compute. reflexivity. Qed.

(** An enumeration numbered with Arabic-Indic digits. *)
Example enumeration_with_arabic_indic_digits :
  Parser.parse_follow_up_response
    ([1633%N] ++ py ". what is it?" ++ nl ++ [1634%N] ++ py ") why so?")
  = Return [py "what is it?"; py "why so?"].
Proof. vm_compute. reflexivity. Qed.

(** An agent type in accented capitals finds the questions of its key
    in small letters. *)
Example accented_agent_type_is_found :
  let state :=
    {| Generators.user_query := None;
       Generators.current_agent_type := Some ([201%N] ++ py "PARGNE");
       Generators.conversation_history := None;
       Generators.user_profile := None;
       Generators.portfolio_data := None |} in
  Generators.keyword_generate_questions (fun _ => Return (py "{}"))
    [([233%N] ++ py "pargne", [py "Combien par mois?"]);
     (py "default", [py "Anything else?"])]
    state (VDict []) 3
  = Return [py "Combien par mois?"].
Proof. vm_compute. reflexivity. Qed.
